(** * Mini-Shell: the command-tree execution engine of [src/cmd.c]

    The engine walks an already parsed command tree and realises it with
    POSIX processes.  The C functions of [cmd.c] are embedded as programs
    over the library and system calls they make ([prog], a free monad);
    a small model of the kernel ([kernel], [exec]) gives those calls a
    meaning: descriptor tables, a file system, process creation and
    reaping.

    Conventions of the embedding:
    - [int] values are [Z]; a function declared [bool] converts what it
      returns with [to_bool], as C does;
    - a pointer that may be [NULL] is an [option];
    - of the heap the model follows one block, the one [get_word]
      allocates for the text of the verb ([command] in [parse_simple]):
      a second [free] of it aborts the process, and a string read in it
      after its [free] is what the allocator left there; every other
      block is freed once, behind its last use;
    - [fork] and [pipe] always succeed;
    - processes are scheduled child first: a forked child runs to its end
      before its parent goes on.  The trace lists the system calls in
      that order, each with the process that made it. *)

From Stdlib Require Import ZArith Ascii String List Bool Lia.
From stdpp Require Import base gmap strings list.

#[local] Set Warnings "-register-all".
Local Open Scope Z_scope.

(** ** Data model (the parser's types, as [cmd.c] reads them) *)

(** A C string together with the address it lives at: [cmd.c] compares
    two [string] fields as pointers. *)
Record cstring := CString { addr : Z; chars : string }.

(** Modelled from the spec: [parser.h] is not among the sources.  A word
    is a chain of literal or expandable fragments ([next_part]); the
    words of an argument list are chained by [next_word].  [cmd.c] itself
    only reads the field [string] (here [string_]). *)
Inductive word_t := Word {
  string_ : cstring;
  expand : bool;
  next_part : option word_t;
  next_word : option word_t
}.

(** Modelled from the spec: the two append flags of [io_flags] are
    distinct single bits. *)
Definition IO_REGULAR : Z := 0.
Definition IO_OUT_APPEND : Z := 1.
Definition IO_ERR_APPEND : Z := 2.

(** Modelled from the spec: [SHELL_EXIT] comes from [cmd.h], which is not
    among the sources.  [parse_command] returns it for an operator it
    does not know; nothing below depends on its value. *)
Definition SHELL_EXIT : Z := -100.

Record simple_command_t := SimpleCommand {
  verb : option word_t;
  params : option word_t;
  in_ : option word_t;
  out : option word_t;
  err : option word_t;
  io_flags : Z
}.

Inductive operator_t :=
| OP_NONE
| OP_SEQUENTIAL
| OP_PARALLEL
| OP_CONDITIONAL_ZERO
| OP_CONDITIONAL_NZERO
| OP_PIPE
| OP_DUMMY.

Inductive command_t := Command {
  op : operator_t;
  cmd1 : option command_t;
  cmd2 : option command_t;
  scmd : option simple_command_t
}.

Definition operator_eqb (a b : operator_t) : bool :=
  match a, b with
  | OP_NONE, OP_NONE | OP_SEQUENTIAL, OP_SEQUENTIAL
  | OP_PARALLEL, OP_PARALLEL | OP_CONDITIONAL_ZERO, OP_CONDITIONAL_ZERO
  | OP_CONDITIONAL_NZERO, OP_CONDITIONAL_NZERO | OP_PIPE, OP_PIPE
  | OP_DUMMY, OP_DUMMY => true
  | _, _ => false
  end.

(** ** C constants and macros *)

Definition READ : Z := 0.
Definition WRITE : Z := 1.

Definition STDIN_FILENO : Z := 0.
Definition STDOUT_FILENO : Z := 1.
Definition STDERR_FILENO : Z := 2.

(** [<fcntl.h>], Linux values. *)
Definition O_RDONLY : Z := 0.
Definition O_WRONLY : Z := 1.
Definition O_CREAT : Z := 64.
Definition O_TRUNC : Z := 512.
Definition O_APPEND : Z := 1024.

(** [0644] *)
Definition MODE_0644 : Z := 420.

Definition SIGSEGV : Z := 11.
Definition SIGABRT : Z := 6.

(** How a process ends: [exit] (or the program image's own exit) with an
    8-bit code, or killed by a signal. *)
Inductive termination :=
| Exited (code : Z)
| Signaled (sig : Z).

(** The [int] that [waitpid] stores: exit code in bits 8..15, the
    terminating signal in bits 0..6. *)
Definition wstatus (t : termination) : Z :=
  match t with
  | Exited code => Z.shiftl (Z.land code 255) 8
  | Signaled sig => Z.land sig 127
  end.

(** [<sys/wait.h>] *)
Definition WTERMSIG (status : Z) : Z := Z.land status 127.
Definition WIFEXITED (status : Z) : bool := WTERMSIG status =? 0.
Definition WEXITSTATUS (status : Z) : Z := Z.shiftr (Z.land status 65280) 8.

(** Conversion of an [int] to [bool] ([_Bool]): what a function declared
    [bool] hands back to a caller that stores it in an [int]. *)
Definition to_bool (v : Z) : Z := if v =? 0 then 0 else 1.

(** ** Programs over library and system calls *)

(** The calls [cmd.c] makes, indexed by what they give back.  [GetWord]
    and [GetArgv] are the helpers of [utils.c]; [Uninitialized] reads an
    automatic variable that has no initialiser; [Stale] reads a string
    in a heap block that has been freed. *)
Inductive call : Type -> Type :=
| GetWord (w : option word_t) : call (option string)
| GetArgv (s : simple_command_t) : call (list string * Z)
| Uninitialized : call Z
| Stale (text : string) : call string
| Chdir (path : option string) : call Z
| Open (path : option string) (flags mode : Z) : call Z
| Close (fd : Z) : call Z
| Dup2 (oldfd newfd : Z) : call Z
| Setenv (name value : option string) (overwrite : Z) : call Z
| Pipe : call (Z * (Z * Z))
| Waitpid (pid status options : Z) : call (Z * Z).

(** A program returns, leaves through [exit], faults, or makes a call and
    goes on with its answer.  [Fork] goes on twice: with 0 in the child
    and with the child's pid in the parent.  [Execvp] goes on only when
    the image could not be replaced. *)
Inductive prog (A : Type) : Type :=
| Ret (a : A)
| Exit (status : Z)
| Fault (sig : Z)
| Call {R : Type} (c : call R) (k : R -> prog A)
| Fork (k : Z -> prog A)
| Execvp (file : string) (argv : list string) (k : Z -> prog A).

Arguments Ret {A} a.
Arguments Exit {A} status.
Arguments Fault {A} sig.
Arguments Call {A R} c k.
Arguments Fork {A} k.
Arguments Execvp {A} file argv k.

Fixpoint bind {A B : Type} (m : prog A) (f : A -> prog B) : prog B :=
  match m with
  | Ret a => f a
  | Exit status => Exit status
  | Fault sig => Fault sig
  | Call c k => Call c (fun r => bind (k r) f)
  | Fork k => Fork (fun r => bind (k r) f)
  | Execvp file argv k => Execvp file argv (fun r => bind (k r) f)
  end.

#[export] Instance prog_ret : MRet prog := @Ret.
#[export] Instance prog_bind : MBind prog := fun A B f m => bind m f.

Definition get_word (w : option word_t) : prog (option string) := Call (GetWord w) Ret.
Definition get_argv (s : simple_command_t) : prog (list string * Z) := Call (GetArgv s) Ret.
Definition uninitialized : prog Z := Call Uninitialized Ret.
Definition chdir (path : option string) : prog Z := Call (Chdir path) Ret.
Definition open (path : option string) (flags mode : Z) : prog Z := Call (Open path flags mode) Ret.
Definition close (fd : Z) : prog Z := Call (Close fd) Ret.
Definition dup2 (oldfd newfd : Z) : prog Z := Call (Dup2 oldfd newfd) Ret.
Definition setenv (name value : option string) (overwrite : Z) : prog Z :=
  Call (Setenv name value overwrite) Ret.
Definition pipe : prog (Z * (Z * Z)) := Call Pipe Ret.
Definition waitpid (pid status options : Z) : prog (Z * Z) := Call (Waitpid pid status options) Ret.
Definition fork : prog Z := Fork Ret.
Definition execvp (file : string) (argv : list string) : prog Z := Execvp file argv Ret.
Definition exit {A} (status : Z) : prog A := Exit status.

(** A string function applied to a pointer: a [NULL] argument faults. *)
Definition deref {A} (p : option A) : prog A :=
  match p with
  | Some a => Ret a
  | None => Fault SIGSEGV
  end.

(** A heap block as the allocator sees it. *)
Inductive block :=
| Live
| Freed.

(** [free(ptr)]: a live block is released.  Releasing a block a second
    time is an error the allocator detects: it calls [abort]. *)
Definition free (b : block) : prog block :=
  match b with
  | Live => Ret Freed
  | Freed => Fault SIGABRT
  end.

(** A string read through a pointer into a block that has been freed:
    [NULL] is still [NULL], anything else reads as what the allocator
    left in the block. *)
Definition dangling (p : option string) : prog (option string) :=
  match p with
  | Some text => Call (Stale text) (fun left => Ret (Some left))
  | None => Ret None
  end.

(** ** String helpers of [<string.h>] *)

(** [strchr(s, c) != NULL] *)
Fixpoint strchr (s : string) (c : ascii) : bool :=
  match s with
  | EmptyString => false
  | String a s' => if Ascii.eqb a c then true else strchr s' c
  end.

Fixpoint skip_delim (s : string) (d : ascii) : string :=
  match s with
  | EmptyString => EmptyString
  | String a s' => if Ascii.eqb a d then skip_delim s' d else s
  end.

Fixpoint span_token (s : string) (d : ascii) : string * string :=
  match s with
  | EmptyString => (EmptyString, EmptyString)
  | String a s' =>
      if Ascii.eqb a d then (EmptyString, s')
      else let '(tok, rest) := span_token s' d in (String a tok, rest)
  end.

(** One step of [strtok] with the single delimiter [d]: the next token
    ([None] for [NULL]) and the text the following call scans. *)
Definition strtok (s : string) (d : ascii) : option string * string :=
  match skip_delim s d with
  | EmptyString => (None, EmptyString)
  | s' => let '(tok, rest) := span_token s' d in (Some tok, rest)
  end.

(** ** [cmd.c] *)

(** Internal change-directory command ([shell_cd], declared [bool]). *)
Definition shell_cd (dir : option word_t) : prog Z :=
  match dir with
  | None => Ret (to_bool (-1))
  | Some _ =>
      path ← get_word dir;
      value ← chdir path;
      Ret (to_bool value)
  end.

(** Internal exit/quit command: [exit(0)] never returns, the
    [return SHELL_EXIT] behind it is dead. *)
Definition shell_exit : prog Z := exit 0.

(** [parse_simple], lines 86-95 (in the child): input redirection. *)
Definition redirect_input (s : simple_command_t) : prog unit :=
  match in_ s with
  | Some _ =>
      (* < input *)
      file_in ← get_word (in_ s);
      input_fd ← open file_in O_RDONLY 0;
      _ ← dup2 input_fd STDIN_FILENO;
      _ ← close input_fd;
      Ret tt
  | None => Ret tt
  end.

(** [p != NULL] *)
Definition non_null {A} (p : option A) : bool :=
  match p with
  | Some _ => true
  | None => false
  end.

(** [flags & flag], read as a condition. *)
Definition has_flag (flags flag : Z) : bool := negb (Z.land flags flag =? 0).

(** [a->string == b->string]: a comparison of pointers, evaluated only
    behind [a && b]. *)
Definition same_string (a b : option word_t) : bool :=
  match a, b with
  | Some a, Some b => addr (string_ a) =? addr (string_ b)
  | _, _ => false
  end.

Definition O_CREATE_APPEND : Z := Z.lor (Z.lor O_WRONLY O_CREAT) O_APPEND.
Definition O_CREATE_TRUNC : Z := Z.lor (Z.lor O_WRONLY O_CREAT) O_TRUNC.

(** [parse_simple], lines 96-156 (in the child): the [if]/[else if]
    chain that redirects standard output and standard error. *)
Definition redirect_output (s : simple_command_t) : prog unit :=
  if non_null (out s) && has_flag (io_flags s) IO_OUT_APPEND then
    (* >> filename *)
    file_out ← get_word (out s);
    output_fd ← open file_out O_CREATE_APPEND MODE_0644;
    _ ← dup2 output_fd STDOUT_FILENO;
    _ ← close output_fd;
    Ret tt
  else if non_null (err s) && has_flag (io_flags s) IO_ERR_APPEND then
    (* 2>> filename *)
    file_err ← get_word (err s);
    error_fd ← open file_err O_CREATE_APPEND MODE_0644;
    _ ← dup2 error_fd STDERR_FILENO;
    _ ← close error_fd;
    Ret tt
  else if non_null (out s) && non_null (err s) && same_string (out s) (err s) then
    (* &> filename *)
    file_out ← get_word (out s);
    output_fd ← open file_out O_CREATE_TRUNC MODE_0644;
    _ ← dup2 output_fd STDOUT_FILENO;
    _ ← dup2 output_fd STDERR_FILENO;
    _ ← close output_fd;
    Ret tt
  else if non_null (out s) && non_null (err s) && negb (same_string (out s) (err s)) then
    (* > filename 2> other: [file_out] and [output_fd] are assigned
       twice, [close] is called once *)
    file_out ← get_word (out s);
    output_fd ← open file_out O_CREATE_TRUNC MODE_0644;
    _ ← dup2 output_fd STDOUT_FILENO;
    file_out ← get_word (err s);
    output_fd ← open file_out O_CREATE_TRUNC MODE_0644;
    _ ← dup2 output_fd STDERR_FILENO;
    _ ← close output_fd;
    Ret tt
  else if non_null (out s) && negb (has_flag (io_flags s) IO_OUT_APPEND)
          && negb (non_null (err s)) then
    (* > filename *)
    file_out ← get_word (out s);
    output_fd ← open file_out O_CREATE_TRUNC MODE_0644;
    _ ← dup2 output_fd STDOUT_FILENO;
    _ ← close output_fd;
    Ret tt
  else if non_null (err s) && negb (has_flag (io_flags s) IO_ERR_APPEND)
          && negb (non_null (out s)) then
    (* 2> filename *)
    file_err ← get_word (err s);
    error_fd ← open file_err O_CREATE_TRUNC MODE_0644;
    _ ← dup2 error_fd STDERR_FILENO;
    _ ← close error_fd;
    Ret tt
  else Ret tt.

(** [parse_simple], lines 158-164 (in the child): build the argument
    vector and replace the program image; behind a failed [execvp] the
    child goes on with [value], the size of the vector. *)
Definition launch (s : simple_command_t) (command : string) : prog Z :=
  '(data, value) ← get_argv s;
  _ ← execvp command data;
  Ret value.

(** Parse a simple command (internal, environment variable assignment,
    external command).  The block that [get_word] allocates for
    [command] is followed through its [free]s: the assignment branch
    frees it before [setenv] reads the two tokens that point into it,
    and the parent of a child that did not exit frees it at line 170 and
    again at line 174.  The other blocks ([filename], [file_in],
    [file_out], [file_err], [data]) are each freed once, behind their
    last use. *)
Definition parse_simple (s : option simple_command_t) (level : Z)
    (father : option command_t) : prog Z :=
  match s with
  | None => Ret 0
  | Some s =>
      if negb (non_null (verb s)) then Ret 0
      else
        command ← get_word (verb s);
        let heap := Live in
        command ← deref command;
        if String.eqb command "cd" then
          filename ← get_word (out s);
          output_fd ← open filename O_CREATE_TRUNC MODE_0644;
          _ ← close output_fd;
          data ← shell_cd (params s);
          _ ← free heap;
          Ret data
        else if String.eqb command "exit" || String.eqb command "quit" then
          _ ← free heap;
          shell_exit
        else if strchr command "=" then
          let '(variable, rest) := strtok command "=" in
          let '(value, _) := strtok rest "=" in
          _ ← free heap;
          variable ← dangling variable;
          value ← dangling value;
          setenv variable value 1
        else
          pid ← fork;
          let value := 0 in
          if pid =? 0 then
            _ ← redirect_input s;
            _ ← redirect_output s;
            value ← launch s command;
            _ ← free heap;
            Ret value
          else
            status ← uninitialized;
            '(_, status) ← waitpid pid status 0;
            heap ← free heap;
            if WIFEXITED status then Ret (WEXITSTATUS status)
            else
              _ ← free heap;
              Ret value
  end.

Section Compound.

(** The three functions below call [parse_command]; [rec] stands for
    it until the recursion is closed. *)
Variable rec : option command_t -> Z -> option command_t -> prog Z.

(** Process two commands in parallel ([run_in_parallel], declared
    [bool]). *)
Definition run_in_parallel (cmd1 cmd2 : option command_t) (level : Z)
    (father : option command_t) : prog Z :=
  pid ← fork;
  let value := 0 in
  if pid =? 0 then
    value ← rec cmd1 (level + 1) father;
    Ret (to_bool value)
  else
    status ← uninitialized;
    value ← rec cmd2 (level + 1) father;
    '(_, status) ← waitpid pid status 0;
    if WIFEXITED status then Ret (to_bool (WEXITSTATUS status))
    else Ret (to_bool value).

(** Run commands by creating an anonymous pipe, [cmd1 | cmd2]
    ([run_on_pipe], declared [bool]). *)
Definition run_on_pipe (cmd1 cmd2 : option command_t) (level : Z)
    (father : option command_t) : prog Z :=
  '(_, (fd0, fd1)) ← pipe;
  pid ← fork;
  if pid =? 0 then
    _ ← close fd0;
    ret ← dup2 fd1 STDOUT_FILENO;
    v ← rec cmd1 (level + 1) father;
    exit v
  else
    pid_2 ← fork;
    if pid_2 =? 0 then
      _ ← close fd1;
      ret ← dup2 fd0 STDIN_FILENO;
      v ← rec cmd2 (level + 1) father;
      exit v
    else
      _ ← close fd0;
      _ ← close fd1;
      status ← uninitialized;
      '(_, status) ← waitpid pid status 0;
      '(ret, status) ← waitpid pid_2 status 0;
      if WIFEXITED status then Ret (to_bool (WEXITSTATUS status))
      else Ret (to_bool ret).

(** The body of [parse_command] for a tree that is not [NULL]. *)
Definition parse_command_body (c : command_t) (level : Z)
    (father : option command_t) : prog Z :=
  if operator_eqb (op c) OP_NONE then parse_simple (scmd c) level father
  else
    match op c with
    | OP_SEQUENTIAL =>
        ret ← rec (cmd1 c) (level + 1) (Some c);
        ret ← rec (cmd2 c) (level + 1) (Some c);
        Ret ret
    | OP_PARALLEL =>
        ret ← run_in_parallel (cmd1 c) (cmd2 c) (level + 1) (Some c);
        Ret ret
    | OP_CONDITIONAL_NZERO =>
        ret ← rec (cmd1 c) (level + 1) (Some c);
        if negb (ret =? 0) then
          ret ← rec (cmd2 c) (level + 1) (Some c);
          Ret ret
        else Ret ret
    | OP_CONDITIONAL_ZERO =>
        ret ← rec (cmd1 c) (level + 1) (Some c);
        if ret =? 0 then
          ret ← rec (cmd2 c) (level + 1) (Some c);
          Ret ret
        else Ret ret
    | OP_PIPE =>
        ret ← run_on_pipe (cmd1 c) (cmd2 c) (level + 1) (Some c);
        Ret ret
    | _ => Ret SHELL_EXIT
    end.

End Compound.

(** Parse and execute a command: [parse_command] on a tree that is not
    [NULL], by recursion on the tree. *)
Fixpoint parse_command_node (c : command_t) (level : Z)
    (father : option command_t) {struct c} : prog Z :=
  parse_command_body
    (fun c' level' father' =>
       match c' with
       | None => Ret (-1)
       | Some c' => parse_command_node c' level' father'
       end)
    c level father.

(** [parse_command], the public entry point. *)
Definition parse_command (c : option command_t) (level : Z)
    (father : option command_t) : prog Z :=
  match c with
  | None => Ret (-1)
  | Some c => parse_command_node c level father
  end.

(** ** A model of the operating system *)

(** A node of the file system: a regular file with the owner's read and
    write permission and its contents, or a directory. *)
Inductive inode :=
| File (readable writable : bool) (data : string)
| Dir.

(** What a descriptor refers to. *)
Inductive ofile :=
| OFile (path : string) (flags : Z)
| OPipe (id : Z) (side : Z)
| OTty.

(** The state private to a process; a forked child starts with a copy. *)
Record process := Process {
  pid : Z;
  fdt : gmap Z ofile;
  cwd : string;
  environ : gmap string string
}.

(** What the trace records of a process: the system calls it made, with
    their outcome. *)
Inductive event :=
| EChdir (path : option string) (ret : Z)
| EOpen (path : option string) (flags ret : Z)
| EClose (fd ret : Z)
| EDup2 (oldfd newfd ret : Z)
| ESetenv (name value : option string) (ret : Z)
| EPipe (rd wr : Z)
| EFork (child : Z)
| EWaitpid (child ret status : Z)
| EExecvp (file : string) (argv : list string) (fds : gmap Z ofile) (launched : bool)
| EExit (status : Z)
| EFault (sig : Z).

(** The state shared by all processes.  [zombies] maps a terminated
    child that was not yet waited for to its parent and wait status. *)
Record system := System {
  fs : gmap string inode;
  next_pid : positive;
  next_pipe : Z;
  zombies : gmap Z (Z * Z);
  trace : list (Z * event)
}.

(** What lies outside [cmd.c]: the word resolver and the argument-vector
    builder of [utils.c] (they read the environment), the value found in
    an uninitialised automatic variable, what a string reads as once its
    block has been freed, and the program images that [execvp] can
    load: [None] when the image cannot be located or executed, otherwise
    how the process ends and what it leaves in the file system. *)
Record externals := Externals {
  resolve_word : option word_t -> gmap string string -> option string;
  resolve_argv : simple_command_t -> gmap string string -> list string * Z;
  indeterminate : Z;
  stale : string -> string;
  image : string -> list string -> process -> gmap string inode ->
          option (termination * gmap string inode)
}.

Definition set_fdt (t : gmap Z ofile) (p : process) : process :=
  Process (pid p) t (cwd p) (environ p).
Definition set_cwd (d : string) (p : process) : process :=
  Process (pid p) (fdt p) d (environ p).
Definition set_environ (e : gmap string string) (p : process) : process :=
  Process (pid p) (fdt p) (cwd p) e.
Definition set_pid (i : Z) (p : process) : process :=
  Process i (fdt p) (cwd p) (environ p).

Definition set_fs (f : gmap string inode) (s : system) : system :=
  System f (next_pid s) (next_pipe s) (zombies s) (trace s).
Definition set_zombies (z : gmap Z (Z * Z)) (s : system) : system :=
  System (fs s) (next_pid s) (next_pipe s) z (trace s).
Definition record (i : Z) (e : event) (s : system) : system :=
  System (fs s) (next_pid s) (next_pipe s) (zombies s) (trace s ++ [(i, e)]).

(** The lowest descriptor that is not open. *)
Fixpoint first_free (t : gmap Z ofile) (n : nat) (fd : Z) : Z :=
  match n with
  | O => fd
  | S n' =>
      match t !! fd with
      | None => fd
      | Some _ => first_free t n' (fd + 1)
      end
  end.

Definition fresh_fd (t : gmap Z ofile) : Z := first_free t (size t) 0.

(** What descriptor [fd] refers to; a negative number is no descriptor. *)
Definition lookup_fd (t : gmap Z ofile) (fd : Z) : option ofile :=
  if fd <? 0 then None else t !! fd.

(** A path is absolute or relative to the working directory. *)
Definition abspath (dir path : string) : string :=
  match path with
  | String "/" _ => path
  | _ => (dir +:+ "/" +:+ path)%string
  end.

(** The file system after [open(path, flags, mode)], or [None] when the
    call fails: no such file without [O_CREAT], a directory opened for
    writing, or a permission that is missing. *)
Definition open_fs (f : gmap string inode) (path : string) (flags mode : Z)
    : option (gmap string inode) :=
  let writing := Z.testbit flags 0 in
  match f !! path with
  | None =>
      if has_flag flags O_CREAT
      then Some (<[path := File (Z.testbit mode 8) (Z.testbit mode 7) ""]> f)
      else None
  | Some Dir => if writing then None else Some f
  | Some (File r w data) =>
      if writing then
        if w then
          if has_flag flags O_TRUNC then Some (<[path := File r w ""]> f)
          else Some f
        else None
      else if r then Some f else None
  end.

Inductive kres (R : Type) :=
| Done (r : R) (p : process) (s : system)
| Killed (sig : Z) (s : system).
Arguments Done {R} r p s.
Arguments Killed {R} sig s.

Section Kernel.

Variable X : externals.

(** One call of a process [p], other than [fork] and [execvp]. *)
Definition kernel {R} (c : call R) (p : process) (s : system) : kres R :=
  match c in call R return kres R with
  | GetWord w => Done (resolve_word X w (environ p)) p s
  | GetArgv sc => Done (resolve_argv X sc (environ p)) p s
  | Uninitialized => Done (indeterminate X) p s
  | Stale text => Done (stale X text) p s
  | Chdir path =>
      match path with
      | None => Done (-1) p (record (pid p) (EChdir path (-1)) s)
      | Some d =>
          match fs s !! abspath (cwd p) d with
          | Some Dir =>
              Done 0 (set_cwd (abspath (cwd p) d) p) (record (pid p) (EChdir path 0) s)
          | _ => Done (-1) p (record (pid p) (EChdir path (-1)) s)
          end
      end
  | Open path flags mode =>
      match path with
      | None => Done (-1) p (record (pid p) (EOpen path flags (-1)) s)
      | Some f =>
          match open_fs (fs s) (abspath (cwd p) f) flags mode with
          | None => Done (-1) p (record (pid p) (EOpen path flags (-1)) s)
          | Some fs' =>
              let fd := fresh_fd (fdt p) in
              Done fd
                (set_fdt (<[fd := OFile (abspath (cwd p) f) flags]> (fdt p)) p)
                (record (pid p) (EOpen path flags fd) (set_fs fs' s))
          end
      end
  | Close fd =>
      match lookup_fd (fdt p) fd with
      | None => Done (-1) p (record (pid p) (EClose fd (-1)) s)
      | Some _ =>
          Done 0 (set_fdt (delete fd (fdt p)) p) (record (pid p) (EClose fd 0) s)
      end
  | Dup2 oldfd newfd =>
      match lookup_fd (fdt p) oldfd with
      | None => Done (-1) p (record (pid p) (EDup2 oldfd newfd (-1)) s)
      | Some f =>
          if newfd <? 0 then Done (-1) p (record (pid p) (EDup2 oldfd newfd (-1)) s)
          else
            Done newfd (set_fdt (<[newfd := f]> (fdt p)) p)
              (record (pid p) (EDup2 oldfd newfd newfd) s)
      end
  | Setenv name value overwrite =>
      match name with
      | None => Done (-1) p (record (pid p) (ESetenv name value (-1)) s)
      | Some n =>
          if String.eqb n "" || strchr n "="
          then Done (-1) p (record (pid p) (ESetenv name value (-1)) s)
          else
            match value with
            | None => Killed SIGSEGV (record (pid p) (EFault SIGSEGV) s)
            | Some v =>
                match environ p !! n with
                | Some _ =>
                    if overwrite =? 0
                    then Done 0 p (record (pid p) (ESetenv name value 0) s)
                    else Done 0 (set_environ (<[n := v]> (environ p)) p)
                           (record (pid p) (ESetenv name value 0) s)
                | None =>
                    Done 0 (set_environ (<[n := v]> (environ p)) p)
                      (record (pid p) (ESetenv name value 0) s)
                end
            end
      end
  | Pipe =>
      let rd := fresh_fd (fdt p) in
      let t1 := <[rd := OPipe (next_pipe s) READ]> (fdt p) in
      let wr := fresh_fd t1 in
      let t2 := <[wr := OPipe (next_pipe s) WRITE]> t1 in
      Done (0, (rd, wr)) (set_fdt t2 p)
        (record (pid p) (EPipe rd wr)
           (System (fs s) (next_pid s) (next_pipe s + 1) (zombies s) (trace s)))
  | Waitpid child status options =>
      match zombies s !! child with
      | Some (parent, st) =>
          if parent =? pid p then
            Done (child, st) p
              (record (pid p) (EWaitpid child child st)
                 (set_zombies (delete child (zombies s)) s))
          else Done (-1, status) p (record (pid p) (EWaitpid child (-1) status) s)
      | None => Done (-1, status) p (record (pid p) (EWaitpid child (-1) status) s)
      end
  end.

(** What a call leaves behind for its caller: the caller returns with
    a value, or the calling process is gone. *)
Inductive result (A : Type) :=
| Returned (a : A) (p : process) (s : system)
| Terminated (t : termination) (s : system).
Arguments Returned {A} a p s.
Arguments Terminated {A} t s.

(** The rest of the calling process: what it does with the value it
    gets back, up to its own end. *)
Definition continuation (A : Type) : Type :=
  A -> process -> system -> termination * system.

Definition finish {A} (kont : continuation A) (r : result A) : termination * system :=
  match r with
  | Returned a p s => kont a p s
  | Terminated t s => (t, s)
  end.

(** Running a program in process [p].  A forked child is a copy of its
    parent: it runs its branch and, if that branch returns, the same
    rest [kont] as the parent.  The child runs to its end before the
    parent goes on. *)
Fixpoint exec {A} (m : prog A) (kont : continuation A) (p : process) (s : system)
    : result A :=
  match m with
  | Ret a => Returned a p s
  | Exit status =>
      Terminated (Exited (Z.land status 255)) (record (pid p) (EExit status) s)
  | Fault sig => Terminated (Signaled sig) (record (pid p) (EFault sig) s)
  | Call c k =>
      match kernel c p s with
      | Done r p' s' => exec (k r) kont p' s'
      | Killed sig s' => Terminated (Signaled sig) s'
      end
  | Fork k =>
      let child := Z.pos (next_pid s) in
      let s1 :=
        record (pid p) (EFork child)
          (System (fs s) (Pos.succ (next_pid s)) (next_pipe s) (zombies s) (trace s)) in
      let '(t, s2) := finish kont (exec (k 0) kont (set_pid child p) s1) in
      exec (k child) kont p (set_zombies (<[child := (pid p, wstatus t)]> (zombies s2)) s2)
  | Execvp file argv k =>
      match image X file argv p (fs s) with
      | Some (t, fs') =>
          Terminated t (record (pid p) (EExecvp file argv (fdt p) true) (set_fs fs' s))
      | None =>
          exec (k (-1)) kont p (record (pid p) (EExecvp file argv (fdt p) false) s)
      end
  end.

Definition run {A} (m : prog A) (kont : continuation A) (p : process) (s : system)
    : termination * system :=
  finish kont (exec m kont p s).

(** The rest of a process that still has [f] to run before [kont]. *)
Definition then_run {A B} (f : A -> prog B) (kont : continuation B) : continuation A :=
  fun a p s => run (f a) kont p s.

End Kernel.

Arguments Returned {A} a p s.
Arguments Terminated {A} t s.

(** ** Notions used to state the properties *)

(** The verb of an external command: neither a builtin nor an
    assignment (the tests of [parse_simple], lines 56, 69 and 74). *)
Definition external_command (cmd : string) : bool :=
  negb (String.eqb cmd "cd")
  && negb (String.eqb cmd "exit" || String.eqb cmd "quit")
  && negb (strchr cmd "=").

(** The system right after process [p] forked. *)
Definition forked (p : process) (s : system) : system :=
  record (pid p) (EFork (Z.pos (next_pid s)))
    (System (fs s) (Pos.succ (next_pid s)) (next_pipe s) (zombies s) (trace s)).

(** The system after [parent] waited for [child], which ended by [t]
    leaving [s]. *)
Definition reaped (parent child : Z) (t : termination) (s : system) : system :=
  record parent (EWaitpid child child (wstatus t))
    (set_zombies (delete child (<[child := (parent, wstatus t)]> (zombies s))) s).

(** Calls that only touch descriptors and files. *)
Definition descriptor_call {R} (c : call R) : Prop :=
  match c with
  | GetWord _ | Open _ _ _ | Close _ | Dup2 _ _ => True
  | _ => False
  end.

(** A program that is a fixed sequence of such calls and then returns. *)
Inductive straight {A} : prog A -> Prop :=
| straight_ret (a : A) : straight (Ret a)
| straight_call {R} (c : call R) (k : R -> prog A) :
    descriptor_call c -> (forall r, straight (k r)) -> straight (Call c k).

(** A path that [open] cannot read: nothing is there, or a file without
    read permission. *)
Definition missing_or_unreadable (f : gmap string inode) (path : string) : Prop :=
  f !! path = None \/ exists w data, f !! path = Some (File false w data).

(** A program that never returns to its caller: every path ends in
    [exit] or in a fault. *)
Inductive exits {A} : prog A -> Prop :=
| exits_exit (status : Z) : exits (Exit status)
| exits_fault (sig : Z) : exits (Fault sig)
| exits_call {R} (c : call R) (k : R -> prog A) :
    (forall r, exits (k r)) -> exits (Call c k)
| exits_fork (k : Z -> prog A) : (forall r, exits (k r)) -> exits (Fork k)
| exits_execvp (file : string) (argv : list string) (k : Z -> prog A) :
    (forall r, exits (k r)) -> exits (Execvp file argv k).

(** What a process other than [owner] leaves alone: pids above [bound]
    are still to be handed out, and the zombie [z], a child of [owner],
    is still there to be waited for. *)
Definition kept (owner bound : Z) (z : option (Z * Z)) (s : system) : Prop :=
  bound < Z.pos (next_pid s) /\
  match z with
  | Some (child, st) => child <= bound /\ zombies s !! child = Some (owner, st)
  | None => True
  end.

(** A caller with nothing left to do. *)
Definition ends_here {A} : continuation A := fun _ _ s => (Exited 0, s).

(** What a run shows: the status returned, the files left, the
    environment left. *)
Definition returned_status {A} (r : result A) : option A :=
  match r with
  | Returned a _ _ => Some a
  | Terminated _ _ => None
  end.

Definition files_after {A} (r : result A) : gmap string inode :=
  match r with
  | Returned _ _ s => fs s
  | Terminated _ s => fs s
  end.

Definition environ_after {A} (r : result A) : gmap string string :=
  match r with
  | Returned _ p _ => environ p
  | Terminated _ _ => ∅
  end.

Definition is_fork (e : event) : bool :=
  match e with
  | EFork _ => true
  | _ => false
  end.

(** The statuses [cmd.c] can hand to a caller: [SHELL_EXIT], -1, an
    exit code or a [bool], and, in the child of a failed [execvp], the
    size the argument-vector builder reported. *)
Definition status_of (X : externals) (v : Z) : Prop :=
  v = SHELL_EXIT \/ v = -1 \/ 0 <= v <= 255 \/
  exists sc env, v = (resolve_argv X sc env).2.

(** [m] hands only values in [P] to the code that called it.  In the
    calling process the value it returns is in [P]; and the whole run,
    with the forked children that return into the caller's code, is the
    same under two callers that differ only in what they do with values
    outside [P]: no such value reaches them, in any process. *)
Definition hands_only (X : externals) {A} (P : A -> Prop) (m : prog A) : Prop :=
  forall (kont kont' : continuation A) p s,
    (forall v q t, P v -> kont v q t = kont' v q t) ->
    exec X m kont p s = exec X m kont' p s /\
    (forall v p' s', exec X m kont p s = Returned v p' s' -> P v).


(** ** A concrete world

    A word resolver, a handful of program images and an initial state, to
    run the engine on concrete trees. *)

(** Modelled from the spec: [get_word] of [utils.c] is not among the
    sources.  A word resolves to the concatenation of its fragments, an
    expandable fragment to the value of the variable it names (empty when
    unset); [NULL] resolves to [NULL]. *)
Fixpoint word_text (env : gmap string string) (w : word_t) : string :=
  match w with
  | Word s e np _ =>
      ((if e then default ""%string (env !! chars s) else chars s) +:+
       match np with
       | Some w' => word_text env w'
       | None => ""
       end)%string
  end.

Definition get_word_model (w : option word_t) (env : gmap string string) : option string :=
  word_text env <$> w.

Fixpoint words_text (env : gmap string string) (w : word_t) : list string :=
  match w with
  | Word _ _ _ nw =>
      word_text env w ::
      match nw with
      | Some w' => words_text env w'
      | None => []
      end
  end.

(** Modelled from the spec: [get_argv] of [utils.c] is not among the
    sources.  The argument vector is the resolved verb followed by the
    resolved arguments; the size it reports is their number. *)
Definition get_argv_model (s : simple_command_t) (env : gmap string string)
    : list string * Z :=
  let argv :=
    match verb s with Some v => [word_text env v] | None => [] end ++
    match params s with Some w => words_text env w | None => [] end in
  (argv, Z.of_nat (length argv)).

(** Program images: [true], [false], [exit2] (ends with code 2),
    [killed] (ends by SIGKILL), [touch f] (creates [f]); nothing else can
    be located. *)
Definition images (file : string) (argv : list string) (p : process)
    (f : gmap string inode) : option (termination * gmap string inode) :=
  if String.eqb file "true" then Some (Exited 0, f)
  else if String.eqb file "false" then Some (Exited 1, f)
  else if String.eqb file "exit2" then Some (Exited 2, f)
  else if String.eqb file "killed" then Some (Signaled 9, f)
  else if String.eqb file "touch" then
    match argv with
    | [_; name] =>
        match f !! abspath (cwd p) name with
        | None => Some (Exited 0, <[abspath (cwd p) name := File true true ""]> f)
        | Some _ => Some (Exited 0, f)
        end
    | _ => Some (Exited 1, f)
    end
  else None.

(** What is left of a string in a freed block: the allocator keeps its
    own link there; in this world it reads as one fixed text. *)
Definition freed_text (text : string) : string := "ZUUU".

Definition world : externals :=
  Externals get_word_model get_argv_model 0 freed_text images.

Definition lit (a : Z) (text : string) : word_t := Word (CString a text) false None None.

(** [verb arg < input > output 2> error], without append flags; the
    words are literals at distinct addresses. *)
Definition simple (v : string) (arg input output error : option string) : simple_command_t :=
  SimpleCommand (Some (lit 1000 v)) (lit 2000 <$> arg) (lit 3000 <$> input)
    (lit 4000 <$> output) (lit 5000 <$> error) IO_REGULAR.

Definition leaf (sc : simple_command_t) : command_t := Command OP_NONE None None (Some sc).
Definition node (o : operator_t) (l r : command_t) : command_t :=
  Command o (Some l) (Some r) None.

(** A shell process: pid 100, the terminal on the three standard
    streams, in [/home]. *)
Definition shell : process :=
  Process 100 (<[0 := OTty]> (<[1 := OTty]> (<[2 := OTty]> ∅))) "/home" ∅.

Definition boot : system :=
  System (<["/home" := Dir]> (<["/home/ro" := File true false "old"]> ∅)) 101 0 ∅ [].

(** A caller that ends the process with the status it gets back. *)
Definition exits_with_status : continuation Z :=
  fun ret p s => (Exited (Z.land ret 255), record (pid p) (EExit ret) s).

(** A caller that, whatever it gets back, has nothing left to do and
    ends the process with status 0 (a shell at the end of its input). *)
Definition exits_with_zero : continuation Z :=
  fun ret p s => (Exited 0, record (pid p) (EExit 0) s).

(** The commands of the runs below: [true], [false], [exit2], [killed],
    [nosuch] (no such program), [touch x], [true < missing],
    [true > o 2> e] and [cd nodir > o]. *)
Definition true_cmd : simple_command_t := simple "true" None None None None.
Definition false_cmd : simple_command_t := simple "false" None None None None.
Definition exit2_cmd : simple_command_t := simple "exit2" None None None None.
Definition killed_cmd : simple_command_t := simple "killed" None None None None.
Definition nosuch_cmd : simple_command_t := simple "nosuch" None None None None.
Definition touch_x : simple_command_t := simple "touch" (Some "x"%string) None None None.
Definition true_from_missing : simple_command_t :=
  simple "true" None (Some "missing"%string) None None.
Definition true_to_o_and_e : simple_command_t :=
  simple "true" None None (Some "o"%string) (Some "e"%string).
Definition cd_nodir_to_o : simple_command_t :=
  simple "cd" (Some "nodir"%string) None (Some "o"%string) None.

(** [(true & false) ; touch x] *)
Definition parallel_then_touch : command_t :=
  node OP_SEQUENTIAL (node OP_PARALLEL (leaf true_cmd) (leaf false_cmd)) (leaf touch_x).


(** ** First runs *)

Example strtok_first : strtok "X=5=6" "=" = (Some "X"%string, "5=6"%string).
Proof. reflexivity. Qed.

Example strtok_second : strtok "5=6" "=" = (Some "5"%string, "6"%string).
Proof. reflexivity. Qed.

Example strtok_nothing_left : strtok "" "=" = (None, ""%string).
Proof. reflexivity. Qed.

Example wait_status_of_exit : WIFEXITED (wstatus (Exited 2)) = true /\
                              WEXITSTATUS (wstatus (Exited 2)) = 2.
Proof. split; reflexivity. Qed.

Example wait_status_of_kill : WIFEXITED (wstatus (Signaled 9)) = false.
Proof. reflexivity. Qed.

Example bool_of_status : to_bool 0 = 0 /\ to_bool 2 = 1 /\ to_bool (-1) = 1.
Proof. repeat split; reflexivity. Qed.

(** [false ; exit2] returns 2. *)
Example run_sequential :
  returned_status
    (exec world (parse_command (Some (node OP_SEQUENTIAL (leaf false_cmd) (leaf exit2_cmd)))
                   0 None) exits_with_zero shell boot) = Some 2.
Proof. vm_compute. reflexivity. Qed.

(** [false && touch x] returns 1 and creates nothing. *)
Example run_and_skips :
  let r := exec world
             (parse_command (Some (node OP_CONDITIONAL_ZERO (leaf false_cmd) (leaf touch_x)))
                0 None) exits_with_zero shell boot in
  returned_status r = Some 1 /\ files_after r !! "/home/x"%string = None.
Proof. vm_compute. split; reflexivity. Qed.

(** [true && touch x] creates [x]. *)
Example run_and_runs :
  let r := exec world
             (parse_command (Some (node OP_CONDITIONAL_ZERO (leaf true_cmd) (leaf touch_x)))
                0 None) exits_with_zero shell boot in
  returned_status r = Some 0 /\ files_after r !! "/home/x"%string = Some (File true true "").
Proof. vm_compute. split; reflexivity. Qed.

(** [false || exit2] returns 2; [true || touch x] returns 0 and creates
    nothing. *)
Example run_or :
  returned_status
    (exec world
       (parse_command (Some (node OP_CONDITIONAL_NZERO (leaf false_cmd) (leaf exit2_cmd)))
          0 None) exits_with_zero shell boot) = Some 2 /\
  let r := exec world
             (parse_command (Some (node OP_CONDITIONAL_NZERO (leaf true_cmd) (leaf touch_x)))
                0 None) exits_with_zero shell boot in
  returned_status r = Some 0 /\ files_after r !! "/home/x"%string = None.
Proof. vm_compute. repeat split; reflexivity. Qed.

(** [X=5]: [command] is freed before [setenv] reads the name and the
    value in it.  The status is 0, and what is set is what the
    allocator left in the block, not [X]. *)
Example run_assignment :
  let r := exec world (parse_command (Some (leaf (simple "X=5" None None None None))) 0 None)
             exits_with_zero shell boot in
  returned_status r = Some 0 /\ environ_after r !! "X"%string = None /\
  environ_after r !! freed_text "X" = Some (freed_text "5").
Proof. vm_compute. repeat split; reflexivity. Qed.

(** [exit] ends the calling process with status 0. *)
Example run_exit :
  exec world (parse_command (Some (leaf (simple "exit" None None None None))) 0 None)
    exits_with_zero shell boot =
  Terminated (Exited 0) (record 100 (EExit 0) boot).
Proof. vm_compute. reflexivity. Qed.

(** [nosuch] under a caller that ends with the status it gets: the child
    ends with the size of its argument vector, 1. *)
Example run_nosuch_status :
  returned_status
    (exec world (parse_command (Some (leaf nosuch_cmd)) 0 None) exits_with_status shell boot)
  = Some 1.
Proof. vm_compute. reflexivity. Qed.

(** ** Wait statuses *)

Lemma WEXITSTATUS_exited code : WEXITSTATUS (wstatus (Exited code)) = Z.land code 255.
Proof.
  unfold WEXITSTATUS, wstatus. apply Z.bits_inj'. intros n Hn.
  rewrite Z.shiftr_spec, !Z.land_spec by lia.
  change 65280 with (Z.shiftl 255 8).
  rewrite !Z.shiftl_spec by lia.
  replace (n + 8 - 8) with n by lia.
  rewrite Z.land_spec. destruct (Z.testbit 255 n); rewrite ?andb_true_r, ?andb_false_r; reflexivity.
Qed.

Lemma WIFEXITED_exited code : WIFEXITED (wstatus (Exited code)) = true.
Proof.
  unfold WIFEXITED, WTERMSIG, wstatus. apply Z.eqb_eq. apply Z.bits_inj'. intros n Hn.
  rewrite Z.land_spec, Z.bits_0.
  change 127 with (Z.ones 7).
  destruct (Z_lt_ge_dec n 7).
  - rewrite Z.shiftl_spec_low by lia. reflexivity.
  - rewrite Z.ones_spec_high by lia. apply andb_false_r.
Qed.

Lemma WIFEXITED_signaled sig : Z.land sig 127 <> 0 -> WIFEXITED (wstatus (Signaled sig)) = false.
Proof.
  intros Hsig. unfold WIFEXITED, WTERMSIG, wstatus.
  apply Z.eqb_neq. rewrite <- Z.land_assoc. exact Hsig.
Qed.

(** ** Running a sequence *)

Section ExecLemmas.

Variable X : externals.

Lemma exec_bind {A B} (m : prog A) (f : A -> prog B) (kont : continuation B) p s :
  exec X (bind m f) kont p s =
  match exec X m (then_run X f kont) p s with
  | Returned a p' s' => exec X (f a) kont p' s'
  | Terminated t s' => Terminated t s'
  end.
Proof.
  revert p s.
  induction m as [a | status | sig | R c k IH | k IH | file argv k IH];
    intros p s; cbn [bind exec].
  - reflexivity.
  - reflexivity.
  - reflexivity.
  - destruct (kernel X c p s) as [r p' s' | sig s']; [apply IH | reflexivity].
  - set (child := Z.pos (next_pid s)). set (s1 := record _ _ _).
    assert (Hchild :
      finish kont (exec X (bind (k 0) f) kont (set_pid child p) s1) =
      finish (then_run X f kont) (exec X (k 0) (then_run X f kont) (set_pid child p) s1)).
    { rewrite IH. destruct (exec X (k 0) (then_run X f kont) _ _); reflexivity. }
    rewrite Hchild.
    destruct (finish (then_run X f kont) _) as [t s2]. apply IH.
  - destruct (image X file argv p (fs s)) as [[t fs'] | ]; [reflexivity | apply IH].
Qed.

Lemma exec_mbind {A B} (m : prog A) (f : A -> prog B) (kont : continuation B) p s :
  exec X (m ≫= f) kont p s =
  match exec X m (then_run X f kont) p s with
  | Returned a p' s' => exec X (f a) kont p' s'
  | Terminated t s' => Terminated t s'
  end.
Proof. apply exec_bind. Qed.

Lemma exec_bind_ret {A} (m : prog A) (kont : continuation A) p s :
  exec X (a ← m; Ret a) kont p s = exec X m kont p s.
Proof.
  rewrite exec_mbind.
  assert (Hk : then_run X (fun a : A => Ret a) kont = kont) by reflexivity.
  rewrite Hk. destruct (exec X m kont p s); reflexivity.
Qed.

(** Continuations that agree everywhere are interchangeable. *)
Lemma exec_ext {A} (m : prog A) (kont kont' : continuation A) :
  (forall a p s, kont a p s = kont' a p s) ->
  forall p s, exec X m kont p s = exec X m kont' p s.
Proof.
  intros Hk.
  induction m as [a | status | sig | R c k IH | k IH | file argv k IH]; intros p s; cbn [exec].
  - reflexivity.
  - reflexivity.
  - reflexivity.
  - destruct (kernel X c p s); [apply IH | reflexivity].
  - rewrite (IH 0).
    assert (Hfin : forall r : result A, finish kont r = finish kont' r)
      by (intros [a p' s' | t s']; [apply Hk | reflexivity]).
    rewrite Hfin. destruct (finish kont' _). apply IH.
  - destruct (image X file argv p (fs s)) as [[t fs'] | ]; [reflexivity | apply IH].
Qed.

Lemma then_run_bind_ret {A B} (f : A -> prog B) (kont : continuation B) a p s :
  then_run X (fun a => r ← f a; Ret r) kont a p s = then_run X f kont a p s.
Proof. unfold then_run, run. rewrite exec_bind_ret. reflexivity. Qed.

Lemma straight_bind {A B} (m : prog A) (f : A -> prog B) :
  straight m -> (forall a, straight (f a)) -> straight (m ≫= f).
Proof.
  intros Hm Hf. induction Hm as [a | R c k Hc Hk IH]; cbn.
  - apply Hf.
  - apply straight_call; [exact Hc | exact IH].
Qed.

Lemma kernel_descriptor_call {R} (c : call R) p s :
  descriptor_call c ->
  exists r p' s',
    kernel X c p s = Done r p' s' /\
    pid p' = pid p /\ cwd p' = cwd p /\ environ p' = environ p.
Proof.
  destruct c; cbn; intros Hc; try contradiction;
    repeat match goal with
           | |- context [match ?x with _ => _ end] => destruct x
           end; eauto 10.
Qed.

Lemma straight_exec {A} (m : prog A) :
  straight m ->
  forall p s, exists a p' s',
    (forall kont, exec X m kont p s = Returned a p' s') /\
    pid p' = pid p /\ cwd p' = cwd p /\ environ p' = environ p.
Proof.
  induction 1 as [a | R c k Hc Hk IH]; intros p s.
  - exists a, p, s. auto.
  - destruct (kernel_descriptor_call c p s Hc) as (r & p' & s' & Hker & Hpid & Hcwd & Henv).
    destruct (IH r p' s') as (a & p2 & s2 & Hrun & Hpid2 & Hcwd2 & Henv2).
    exists a, p2, s2. repeat split; try congruence.
    intros kont. cbn. rewrite Hker. apply Hrun.
Qed.

Ltac straight_steps :=
  repeat first
    [ apply straight_bind; [ | intros ? ]
    | apply straight_call; [ exact I | intros ? ]
    | apply straight_ret ].

Lemma redirect_input_straight sc : straight (redirect_input sc).
Proof. unfold redirect_input. destruct (in_ sc); straight_steps. Qed.

Lemma redirect_output_straight sc : straight (redirect_output sc).
Proof.
  unfold redirect_output.
  repeat match goal with |- context [if ?b then _ else _] => destruct b end;
    straight_steps.
Qed.

(** What [launch] does to the process that runs it: it ends as the
    program image does, or, when no image can be loaded, as the caller
    of [parse_simple] does with the value [launch] returns. *)
Lemma run_launch sc cmd (kont : continuation Z) q s :
  run X (launch sc cmd) kont q s =
  match image X cmd (resolve_argv X sc (environ q)).1 q (fs s) with
  | Some (t, fs') =>
      (t, record (pid q)
            (EExecvp cmd (resolve_argv X sc (environ q)).1 (fdt q) true) (set_fs fs' s))
  | None =>
      kont (resolve_argv X sc (environ q)).2 q
        (record (pid q) (EExecvp cmd (resolve_argv X sc (environ q)).1 (fdt q) false) s)
  end.
Proof.
  unfold run, launch. cbn.
  destruct (resolve_argv X sc (environ q)) as [argv n]. cbn.
  destruct (image X cmd argv q (fs s)) as [[t fs'] | ]; reflexivity.
Qed.

(** The external-command path of [parse_simple]: the child sets up its
    streams and runs [launch]; the parent waits for it and returns its
    exit code.  When the child did not exit the parent frees [command]
    a second time and is aborted. *)
Lemma parse_simple_external sc level father (kont : continuation Z) p s v cmd :
  verb sc = Some v ->
  resolve_word X (verb sc) (environ p) = Some cmd ->
  external_command cmd = true ->
  exists q0 s0 q1 s1,
    (forall k, exec X (redirect_input sc) k (set_pid (Z.pos (next_pid s)) p) (forked p s)
               = Returned tt q0 s0) /\
    (forall k, exec X (redirect_output sc) k q0 s0 = Returned tt q1 s1) /\
    pid q1 = Z.pos (next_pid s) /\ cwd q1 = cwd p /\ environ q1 = environ p /\
    exec X (parse_simple (Some sc) level father) kont p s =
    let '(t, s2) := run X (launch sc cmd) kont q1 s1 in
    if WIFEXITED (wstatus t)
    then Returned (WEXITSTATUS (wstatus t)) p (reaped (pid p) (Z.pos (next_pid s)) t s2)
    else Terminated (Signaled SIGABRT)
           (record (pid p) (EFault SIGABRT) (reaped (pid p) (Z.pos (next_pid s)) t s2)).
Proof.
  intros Hv Hcmd Hext.
  destruct (straight_exec _ (redirect_input_straight sc)
              (set_pid (Z.pos (next_pid s)) p) (forked p s))
    as ([] & q0 & s0 & Hin & Hpid0 & Hcwd0 & Henv0).
  destruct (straight_exec _ (redirect_output_straight sc) q0 s0)
    as ([] & q1 & s1 & Hout & Hpid1 & Hcwd1 & Henv1).
  exists q0, s0, q1, s1.
  split; [exact Hin | ]. split; [exact Hout | ].
  split; [rewrite Hpid1, Hpid0; reflexivity | ].
  split; [rewrite Hcwd1, Hcwd0; reflexivity | ].
  split; [rewrite Henv1, Henv0; reflexivity | ].
  destruct (run X (launch sc cmd) kont q1 s1) as [t s2] eqn:Hlaunch.
  unfold external_command in Hext.
  apply andb_prop in Hext as [Hext Heq]. apply andb_prop in Hext as [Hcd Hexit].
  apply negb_true_iff in Hcd, Hexit, Heq.
  unfold parse_simple. rewrite Hv in Hcmd |- *. cbn [non_null negb].
  cbn. rewrite Hcmd. cbn. rewrite Hcd, Hexit, Heq.
  cbn. fold (forked p s).
  rewrite exec_mbind, Hin, exec_mbind, Hout.
  match goal with
  | |- context [finish kont (exec X ?m kont q1 s1)] =>
      change m with (value ← launch sc cmd; Ret value)
  end.
  rewrite exec_bind_ret. fold (run X (launch sc cmd) kont q1 s1). rewrite Hlaunch.
  rewrite lookup_insert_eq, Z.eqb_refl. cbn.
  destruct (WIFEXITED (wstatus t)); reflexivity.
Qed.

End ExecLemmas.

(** ** Programs that end the process, and what other processes leave alone *)

Lemma exits_bind_l {A B} (m : prog A) (f : A -> prog B) : exits m -> exits (m ≫= f).
Proof.
  induction 1; cbn; constructor; assumption.
Qed.

Lemma exits_bind_r {A B} (m : prog A) (f : A -> prog B) :
  (forall a, exits (f a)) -> exits (m ≫= f).
Proof.
  intros Hf. induction m; cbn; try (constructor; assumption). apply Hf.
Qed.

Section Frame.
Variable X : externals.

Lemma exits_exec {A} (m : prog A) :
  exits m ->
  forall (kont kont' : continuation A) q s,
    exec X m kont q s = exec X m kont' q s /\
    exists t s', exec X m kont q s = Terminated t s'.
Proof.
  induction 1 as [status | sig | R c k Hk IH | k Hk IH | file argv k Hk IH];
    intros kont kont' q s; cbn [exec].
  - eauto.
  - eauto.
  - destruct (kernel X c q s) as [r q' s' | sig s']; [apply IH | eauto].
  - destruct (IH 0 kont kont' (set_pid (Z.pos (next_pid s)) q)
                (record (pid q) (EFork (Z.pos (next_pid s)))
                   (System (fs s) (Pos.succ (next_pid s)) (next_pipe s) (zombies s) (trace s))))
      as [Heq (t & s' & Hterm)].
    rewrite <- Heq, Hterm. cbn [finish]. apply IH.
  - destruct (image X file argv q (fs s)) as [[t fs'] | ]; [eauto | apply IH].
Qed.

Variables owner bound : Z.
Variable z : option (Z * Z).
Hypothesis owner_below : owner <= bound.

Lemma kernel_kept {R} (c : call R) q s :
  pid q <> owner ->
  kept owner bound z s ->
  match kernel X c q s with
  | Done _ q' s' => pid q' = pid q /\ kept owner bound z s'
  | Killed _ s' => kept owner bound z s'
  end.
Proof.
  intros Hq Hs.
  destruct c; cbn;
    repeat match goal with
           | |- context [match ?x with _ => _ end] =>
               lazymatch x with
               | context [match _ with _ => _ end] => fail
               | _ => destruct x eqn:?
               end
           end; try (split; [reflexivity | exact Hs]); try exact Hs.
  split; [reflexivity | ].
  destruct Hs as [Hnext Hz]. split; [exact Hnext | ].
  destruct z as [[child st] | ]; [ | exact I].
  destruct Hz as [Hle Hz]. split; [exact Hle | ]. cbn.
  apply Z.eqb_eq in Heqb.
  rewrite lookup_delete_ne; [exact Hz | ].
  intros ->. rewrite Hz in Heqo. congruence.
Qed.

Lemma exec_kept {A} (m : prog A) :
  forall (kont : continuation A) q s,
    pid q <> owner ->
    kept owner bound z s ->
    (forall a q' s', pid q' <> owner -> kept owner bound z s' ->
                     kept owner bound z (kont a q' s').2) ->
    match exec X m kont q s with
    | Returned _ q' s' => pid q' = pid q /\ kept owner bound z s'
    | Terminated _ s' => kept owner bound z s'
    end.
Proof.
  induction m as [a | status | sig | R c k IH | k IH | file argv k IH];
    intros kont q s Hq Hs Hkont; cbn [exec].
  - auto.
  - exact Hs.
  - exact Hs.
  - pose proof (kernel_kept c q s Hq Hs) as Hker.
    destruct (kernel X c q s) as [r q' s' | sig s']; [ | exact Hker].
    destruct Hker as [Hpid Hs'].
    specialize (IH r kont q' s'). rewrite Hpid in IH. apply IH; assumption.
  - set (child := Z.pos (next_pid s)).
    set (s1 := record _ _ _).
    assert (Hchild : bound < child) by apply Hs.
    assert (Hs1 : kept owner bound z s1).
    { destruct Hs as [Hnext Hz]. split; [cbn; lia | exact Hz]. }
    assert (Hend : kept owner bound z (finish kont (exec X (k 0) kont (set_pid child q) s1)).2).
    { pose proof (IH 0 kont (set_pid child q) s1) as Hrun. cbn [pid set_pid] in Hrun.
      assert (Hne : child <> owner) by lia.
      specialize (Hrun Hne Hs1 Hkont).
      destruct (exec X (k 0) kont (set_pid child q) s1) as [a q' s' | t s']; cbn [finish].
      - destruct Hrun as [Hpid Hs']. apply Hkont; [ | exact Hs']. cbn in Hpid. lia.
      - exact Hrun. }
    destruct (finish kont (exec X (k 0) kont (set_pid child q) s1)) as [t s2].
    cbn [snd] in Hend.
    apply IH; [exact Hq | | exact Hkont].
    destruct Hend as [Hnext Hz]. split; [exact Hnext | ].
    destruct z as [[c st] | ]; [ | exact I].
    destruct Hz as [Hle Hz]. split; [exact Hle | ]. cbn.
    rewrite lookup_insert_ne by lia. exact Hz.
  - destruct (image X file argv q (fs s)) as [[t fs'] | ].
    + exact Hs.
    + apply IH; assumption.
Qed.

End Frame.

(** ** Descriptor allocation *)

Lemma first_free_ge (t : gmap Z ofile) n fd : fd <= first_free t n fd.
Proof.
  revert fd. induction n as [ | n IH]; intros fd; cbn.
  - lia.
  - destruct (t !! fd); [ | lia]. specialize (IH (fd + 1)). lia.
Qed.

Lemma first_free_delete (t : gmap Z ofile) n fd fd0 :
  fd < fd0 -> first_free (delete fd t) n fd0 = first_free t n fd0.
Proof.
  revert fd0. induction n as [ | n IH]; intros fd0 Hlt; cbn.
  - reflexivity.
  - rewrite lookup_delete_ne by lia.
    destruct (t !! fd0); [apply IH; lia | reflexivity].
Qed.

Lemma first_free_fresh n : forall (t : gmap Z ofile) fd,
  (size t <= n)%nat -> t !! first_free t n fd = None.
Proof.
  induction n as [ | n IH]; intros t fd Hsize; cbn.
  - assert (t = ∅) as -> by (apply map_size_empty_iff; lia). apply lookup_empty.
  - destruct (t !! fd) as [f | ] eqn:Hfd; [ | exact Hfd].
    rewrite <- (first_free_delete t n fd (fd + 1)) by lia.
    pose proof (first_free_ge (delete fd t) n (fd + 1)) as Hge.
    rewrite <- (lookup_delete_ne t fd) by lia.
    apply IH.
    rewrite map_size_delete, Hfd. cbn. lia.
Qed.

Lemma fresh_fd_fresh (t : gmap Z ofile) : t !! fresh_fd t = None.
Proof. apply first_free_fresh. reflexivity. Qed.

Lemma fresh_fd_nonneg (t : gmap Z ofile) : 0 <= fresh_fd t.
Proof. apply first_free_ge. Qed.

Lemma lookup_fd_nonneg (t : gmap Z ofile) fd : 0 <= fd -> lookup_fd t fd = t !! fd.
Proof. intros Hfd. unfold lookup_fd. destruct (Z.ltb_spec fd 0); [lia | reflexivity]. Qed.

(** ** The file system under [open] *)

Lemma open_fs_trunc (f f' : gmap string inode) path :
  open_fs f path O_CREATE_TRUNC MODE_0644 = Some f' ->
  exists r w, f' !! path = Some (File r w "").
Proof.
  unfold open_fs.
  change (Z.testbit O_CREATE_TRUNC 0) with true.
  change (has_flag O_CREATE_TRUNC O_CREAT) with true.
  change (has_flag O_CREATE_TRUNC O_TRUNC) with true.
  destruct (f !! path) as [[r w data | ] | ]; cbn.
  - destruct w; [ | discriminate].
    intros [= <-]. exists r, true. apply lookup_insert_eq.
  - discriminate.
  - intros [= <-]. eexists _, _. apply lookup_insert_eq.
Qed.

Lemma open_fs_dir (f f' : gmap string inode) path flags mode q :
  open_fs f path flags mode = Some f' -> f' !! q = Some Dir -> f !! q = Some Dir.
Proof.
  unfold open_fs. intros Hopen Hdir.
  assert (Hins : forall i, <[path := i]> f = f' -> i <> Dir -> f !! q = Some Dir).
  { intros i <- Hi. destruct (decide (path = q)) as [-> | Hne].
    - rewrite lookup_insert_eq in Hdir. congruence.
    - rewrite lookup_insert_ne in Hdir by exact Hne. exact Hdir. }
  destruct (f !! path) as [[r w data | ] | ];
    repeat match type of Hopen with
           | (if ?b then _ else _) = _ => destruct b
           end;
    try discriminate; injection Hopen as Hopen; subst; eauto; eapply Hins; eauto; discriminate.
Qed.

Lemma open_fs_unreadable (f : gmap string inode) path :
  missing_or_unreadable f path -> open_fs f path O_RDONLY 0 = None.
Proof.
  unfold open_fs. intros [-> | (w & data & ->)]; reflexivity.
Qed.

(** ** The claims *)

Section Claims.

Variable X : externals.

(** C1 (what the code does): for an external command whose child is
    killed by a signal, [parse_simple] returns nothing to its caller:
    the calling process is aborted.  The child is the process [q1] the
    two redirection blocks leave; its image ends by signal [sig]; the
    parent's [waitpid] stores a status for which [WIFEXITED] is false.
    The parent has freed [command] at line 170, skips the [return] of
    line 172 and frees [command] again at line 174: the allocator
    detects the second [free] and the process ends by [SIGABRT], before
    the [return value] of line 175. *)
Theorem C1_signaled_child_aborts_caller sc v cmd level father (kont : continuation Z) p s :
  verb sc = Some v ->
  resolve_word X (verb sc) (environ p) = Some cmd ->
  external_command cmd = true ->
  exists q0 s0 q1 s1,
    (forall k, exec X (redirect_input sc) k (set_pid (Z.pos (next_pid s)) p) (forked p s)
               = Returned tt q0 s0) /\
    (forall k, exec X (redirect_output sc) k q0 s0 = Returned tt q1 s1) /\
    forall sig fs',
      Z.land sig 127 <> 0 ->
      image X cmd (resolve_argv X sc (environ p)).1 q1 (fs s1) = Some (Signaled sig, fs') ->
      exec X (parse_simple (Some sc) level father) kont p s =
      Terminated (Signaled SIGABRT)
        (record (pid p) (EFault SIGABRT)
           (reaped (pid p) (Z.pos (next_pid s)) (Signaled sig)
              (record (Z.pos (next_pid s))
                 (EExecvp cmd (resolve_argv X sc (environ p)).1 (fdt q1) true)
                 (set_fs fs' s1)))).
Proof.
  intros Hv Hcmd Hext.
  destruct (parse_simple_external X sc level father kont p s v cmd Hv Hcmd Hext)
    as (q0 & s0 & q1 & s1 & Hin & Hout & Hpid & _ & Henv & Hrun).
  exists q0, s0, q1, s1. split; [exact Hin | ]. split; [exact Hout | ].
  intros sig fs' Hsig Himage.
  rewrite Hrun, run_launch, Henv, Himage, Hpid.
  rewrite WIFEXITED_signaled by exact Hsig. reflexivity.
Qed.

(** C2 (what the code does): for an external command whose program
    image cannot be located or executed, the child does not end in
    [parse_simple]: [execvp] fails, the function returns [value] (the
    size of the argument vector) and the child, a copy of the shell,
    goes on with the caller's code [kont].  How the child ends, and so
    what the parent gets from [waitpid], is whatever [kont] makes of
    it: the parent returns the exit code of that end, and is itself
    aborted on the second [free] of [command] when the child did not
    exit. *)
Theorem C2_failed_launch_returns_to_caller sc v cmd level father (kont : continuation Z) p s :
  verb sc = Some v ->
  resolve_word X (verb sc) (environ p) = Some cmd ->
  external_command cmd = true ->
  exists q0 s0 q1 s1,
    (forall k, exec X (redirect_input sc) k (set_pid (Z.pos (next_pid s)) p) (forked p s)
               = Returned tt q0 s0) /\
    (forall k, exec X (redirect_output sc) k q0 s0 = Returned tt q1 s1) /\
    pid q1 = Z.pos (next_pid s) /\
    (image X cmd (resolve_argv X sc (environ p)).1 q1 (fs s1) = None ->
     exec X (parse_simple (Some sc) level father) kont p s =
     let '(t, s2) :=
       kont (resolve_argv X sc (environ p)).2 q1
         (record (Z.pos (next_pid s))
            (EExecvp cmd (resolve_argv X sc (environ p)).1 (fdt q1) false) s1) in
     if WIFEXITED (wstatus t)
     then Returned (WEXITSTATUS (wstatus t)) p (reaped (pid p) (Z.pos (next_pid s)) t s2)
     else Terminated (Signaled SIGABRT)
            (record (pid p) (EFault SIGABRT) (reaped (pid p) (Z.pos (next_pid s)) t s2))).
Proof.
  intros Hv Hcmd Hext.
  destruct (parse_simple_external X sc level father kont p s v cmd Hv Hcmd Hext)
    as (q0 & s0 & q1 & s1 & Hin & Hout & Hpid & _ & Henv & Hrun).
  exists q0, s0, q1, s1. split; [exact Hin | ]. split; [exact Hout | ].
  split; [exact Hpid | ].
  intros Himage.
  rewrite Hrun, run_launch, Henv, Himage, Hpid. reflexivity.
Qed.

Lemma parse_command_pipe l r sc level father :
  parse_command (Some (Command OP_PIPE l r sc)) level father =
  (ret ← run_on_pipe parse_command l r (level + 1) (Some (Command OP_PIPE l r sc)); Ret ret).
Proof. reflexivity. Qed.

(** C3 (what the code does): a [OP_PIPE] node forks two children, waits
    for the first and then for the second (the last two calls of the
    parent before it returns, both successful), and returns the [bool]
    that [run_on_pipe] makes of the second child's exit code: 0 when that
    code is 0 and 1 otherwise, also when the child did not exit.  [t1]
    and [t2] are how the two children ended. *)
Theorem C3_pipe_returns_bool_of_right_status l r sc level father (kont : continuation Z) p s :
  pid p < Z.pos (next_pid s) ->
  exists child2 t1 t2 p' s' tr,
    exec X (parse_command (Some (Command OP_PIPE l r sc)) level father) kont p s =
    Returned (if WIFEXITED (wstatus t2) then to_bool (WEXITSTATUS (wstatus t2)) else 1)
      p' s' /\
    Z.pos (next_pid s) <> child2 /\
    trace s' = tr ++ [(pid p, EWaitpid (Z.pos (next_pid s)) (Z.pos (next_pid s)) (wstatus t1));
                      (pid p, EWaitpid child2 child2 (wstatus t2))].
Proof.
  intros Hfresh.
  rewrite parse_command_pipe, exec_bind_ret. unfold run_on_pipe.
  rewrite exec_mbind. cbn [exec pipe kernel].
  set (fd0 := fresh_fd (fdt p)). set (fd1 := fresh_fd _).
  set (p1 := set_fdt _ p). set (s1 := record _ _ _).
  assert (Hp1 : pid p1 = pid p) by reflexivity.
  assert (Hn1 : next_pid s1 = next_pid s) by reflexivity.
  clearbody fd0 fd1 p1 s1. rewrite <- Hp1, <- Hn1 in *. clear Hp1 Hn1 p s.
  set (c := Command OP_PIPE l r sc).
  cbn [mbind prog_bind bind fork exec].
  change (0 =? 0) with true. cbv iota.
  set (child1 := Z.pos (next_pid s1)).
  change (child1 =? 0) with false. cbv iota.
  assert (Hown : pid p1 <= child1) by (unfold child1; lia).
  (* the first child *)
  set (P1 := close fd0 ≫= _).
  assert (HP1 : exits P1).
  { unfold P1. repeat (apply exits_call; intros ?). apply exits_bind_r. intros v. constructor. }
  set (s1' := record (pid p1) (EFork child1) _).
  destruct (exits_exec X P1 HP1 kont ends_here (set_pid child1 p1) s1')
    as [Hsame1 (t1 & sa & Hend1)].
  pose proof (exec_kept X (pid p1) child1 None Hown P1 ends_here (set_pid child1 p1) s1')
    as Hkept1.
  rewrite <- Hsame1, Hend1 in Hkept1. rewrite Hend1. cbn [finish].
  assert (Hsa : kept (pid p1) child1 None sa).
  { apply Hkept1.
    - cbn. lia.
    - split; [cbn; lia | exact I].
    - intros a q' s' _ Hs'. exact Hs'. }
  clear Hkept1 Hsame1 Hend1.
  set (sa' := set_zombies _ sa).
  assert (Hsa' : kept (pid p1) child1 (Some (child1, wstatus t1)) sa').
  { destruct Hsa as [Hnext _]. split; [exact Hnext | ].
    split; [lia | apply lookup_insert_eq]. }
  (* the second child *)
  cbn [exec].
  set (child2 := Z.pos (next_pid sa')).
  assert (Hchild2 : child1 < child2) by apply Hsa'.
  change (0 =? 0) with true. cbv iota.
  assert (Hz : (child2 =? 0) = false) by (apply Z.eqb_neq; lia).
  rewrite Hz. clear Hz.
  set (P2 := close fd1 ≫= _).
  assert (HP2 : exits P2).
  { unfold P2. repeat (apply exits_call; intros ?). apply exits_bind_r. intros v. constructor. }
  set (sb0 := record (pid p1) (EFork child2) _).
  destruct (exits_exec X P2 HP2 kont ends_here (set_pid child2 p1) sb0)
    as [Hsame2 (t2 & sb & Hend2)].
  pose proof (exec_kept X (pid p1) child1 (Some (child1, wstatus t1)) Hown P2 ends_here
                (set_pid child2 p1) sb0) as Hkept2.
  rewrite <- Hsame2, Hend2 in Hkept2. rewrite Hend2. cbn [finish].
  assert (Hsb : kept (pid p1) child1 (Some (child1, wstatus t1)) sb).
  { apply Hkept2.
    - cbn. lia.
    - destruct Hsa' as [Hnext Hz]. split; [unfold sb0, child2, sa' in *; cbn in *; lia | exact Hz].
    - intros a q' s' _ Hs'. exact Hs'. }
  clear Hkept2 Hsame2 Hend2.
  destruct Hsb as [_ [_ Hzombie1]].
  (* the parent *)
  exists child2, t1, t2.
  cbn [mbind prog_bind bind close uninitialized waitpid exec kernel].
  destruct (lookup_fd (fdt p1) fd0);
    match goal with
    | |- context [lookup_fd ?t fd1] => destruct (lookup_fd t fd1)
    end;
    cbn;
    rewrite lookup_insert_ne by lia; rewrite Hzombie1, Z.eqb_refl; cbn;
    rewrite lookup_delete_ne by lia; rewrite lookup_insert_eq, Z.eqb_refl; cbn;
    eexists _, _, _;
    (split;
     [ destruct (WIFEXITED (wstatus t2)); reflexivity
     | split; [lia | cbn; rewrite <- app_assoc; reflexivity] ]).
Qed.
Lemma parse_command_parallel l r sc level father :
  parse_command (Some (Command OP_PARALLEL l r sc)) level father =
  (ret ← run_in_parallel parse_command l r (level + 1) (Some (Command OP_PARALLEL l r sc));
   Ret ret).
Proof. reflexivity. Qed.

(** C4 (what the code does): in a [OP_PARALLEL] node the forked child
    runs the left command and, when that returns [a], returns
    [to_bool a] from [run_in_parallel] to the caller of the node: the
    child's end [t] is what the caller's code [kont] makes of it.  The
    parent runs the right command, waits for the child and reads the
    status of that end. *)
Theorem C4_parallel_child_returns_to_caller l r sc level father (kont : continuation Z)
    p s a q s' :
  let c := Command OP_PARALLEL l r sc in
  let child := Z.pos (next_pid s) in
  exec X (parse_command l (level + 1 + 1) (Some c))
    (then_run X (fun value => Ret (to_bool value)) kont) (set_pid child p) (forked p s)
  = Returned a q s' ->
  exec X (parse_command (Some c) level father) kont p s =
  let '(t, s2) := kont (to_bool a) q s' in
  exec X
    (status ← uninitialized;
     value ← parse_command r (level + 1 + 1) (Some c);
     '(_, status) ← waitpid child status 0;
     if WIFEXITED status then Ret (to_bool (WEXITSTATUS status))
     else Ret (to_bool value))
    kont p (set_zombies (<[child := (pid p, wstatus t)]> (zombies s2)) s2).
Proof.
  intros c child Hleft.
  unfold c at 1. rewrite parse_command_parallel. fold c.
  rewrite exec_bind_ret. unfold run_in_parallel.
  cbn [mbind prog_bind bind fork exec].
  change (0 =? 0) with true. cbv iota.
  fold child. fold (forked p s).
  change (child =? 0) with false. cbv iota.
  unfold forked in Hleft. fold child in Hleft.
  rewrite exec_mbind, Hleft. cbn [exec finish]. reflexivity.
Qed.
(** An input redirection whose target cannot be read: the three calls
    fail one after the other and the block returns with the process as
    it was. *)
Lemma redirect_input_failed sc w name (k : continuation unit) q s :
  in_ sc = Some w ->
  resolve_word X (in_ sc) (environ q) = Some name ->
  missing_or_unreadable (fs s) (abspath (cwd q) name) ->
  exec X (redirect_input sc) k q s =
  Returned tt q
    (record (pid q) (EClose (-1) (-1))
       (record (pid q) (EDup2 (-1) STDIN_FILENO (-1))
          (record (pid q) (EOpen (Some name) O_RDONLY (-1)) s))).
Proof.
  intros Hin Hname Hmiss. apply open_fs_unreadable in Hmiss.
  unfold redirect_input. rewrite Hin in Hname |- *.
  cbn. rewrite Hname, Hmiss. reflexivity.
Qed.

(** C5 (amended): for an external command with an input redirection
    whose target does not exist or is not readable, the failure is not
    looked at.  [open] returns -1, [dup2] and [close] fail on it, and the
    child keeps the descriptor table it inherited (standard input
    included); the output redirections follow, the program image is
    loaded all the same, and when the program exits the status returned
    is its exit code. *)
Theorem C5_failed_input_redirection_is_ignored sc v w cmd name level father
    (kont : continuation Z) p s :
  verb sc = Some v ->
  resolve_word X (verb sc) (environ p) = Some cmd ->
  external_command cmd = true ->
  in_ sc = Some w ->
  resolve_word X (in_ sc) (environ p) = Some name ->
  missing_or_unreadable (fs s) (abspath (cwd p) name) ->
  let child := Z.pos (next_pid s) in
  let s0 :=
    record child (EClose (-1) (-1))
      (record child (EDup2 (-1) STDIN_FILENO (-1))
         (record child (EOpen (Some name) O_RDONLY (-1)) (forked p s))) in
  (forall k, exec X (redirect_input sc) k (set_pid child p) (forked p s)
             = Returned tt (set_pid child p) s0) /\
  exists q1 s1,
    (forall k, exec X (redirect_output sc) k (set_pid child p) s0 = Returned tt q1 s1) /\
    forall code fs',
      image X cmd (resolve_argv X sc (environ p)).1 q1 (fs s1) = Some (Exited code, fs') ->
      exec X (parse_simple (Some sc) level father) kont p s =
      Returned (Z.land code 255) p
        (reaped (pid p) child (Exited code)
           (record child (EExecvp cmd (resolve_argv X sc (environ p)).1 (fdt q1) true)
              (set_fs fs' s1))).
Proof.
  intros Hv Hcmd Hext Hin Hname Hmiss child s0.
  assert (Hfail : forall k, exec X (redirect_input sc) k (set_pid child p) (forked p s)
                            = Returned tt (set_pid child p) s0).
  { intros k. apply (redirect_input_failed sc w name k (set_pid child p) (forked p s));
      assumption. }
  split; [exact Hfail | ].
  destruct (parse_simple_external X sc level father kont p s v cmd Hv Hcmd Hext)
    as (q0 & s0' & q1 & s1 & Hin' & Hout & Hpid & _ & Henv & Hrun).
  fold child in Hin', Hpid, Hrun.
  specialize (Hin' (fun _ _ s' => (Exited 0, s'))). rewrite Hfail in Hin'.
  injection Hin' as <- <-.
  exists q1, s1. split; [exact Hout | ].
  intros code fs' Himage.
  rewrite Hrun, run_launch, Henv, Himage, Hpid.
  rewrite WIFEXITED_exited, WEXITSTATUS_exited. reflexivity.
Qed.

(** C6 (what the code does): with distinct targets for standard output
    and standard error, no append flag, both files opened and the two
    standard streams in place, the block makes five calls: [open],
    [dup2], [open], [dup2] and one [close], of the second descriptor
    [fd2].  The first descriptor [fd1], which was free before and is
    neither 1 nor 2, is still open on the output target when the block
    returns. *)
Theorem C6_first_descriptor_is_never_closed sc o e name_o name_e fs1 fs2 q s :
  out sc = Some o ->
  err sc = Some e ->
  has_flag (io_flags sc) IO_OUT_APPEND = false ->
  has_flag (io_flags sc) IO_ERR_APPEND = false ->
  same_string (out sc) (err sc) = false ->
  resolve_word X (out sc) (environ q) = Some name_o ->
  resolve_word X (err sc) (environ q) = Some name_e ->
  open_fs (fs s) (abspath (cwd q) name_o) O_CREATE_TRUNC MODE_0644 = Some fs1 ->
  open_fs fs1 (abspath (cwd q) name_e) O_CREATE_TRUNC MODE_0644 = Some fs2 ->
  is_Some (fdt q !! STDOUT_FILENO) ->
  is_Some (fdt q !! STDERR_FILENO) ->
  let fd1 := fresh_fd (fdt q) in
  exists fd2 q',
    (forall k, exec X (redirect_output sc) k q s =
               Returned tt q'
                 (record (pid q) (EClose fd2 0)
                    (record (pid q) (EDup2 fd2 STDERR_FILENO STDERR_FILENO)
                       (record (pid q) (EOpen (Some name_e) O_CREATE_TRUNC fd2)
                          (record (pid q) (EDup2 fd1 STDOUT_FILENO STDOUT_FILENO)
                             (record (pid q) (EOpen (Some name_o) O_CREATE_TRUNC fd1)
                                (set_fs fs2 s))))))) /\
    fd1 <> fd2 /\ fd1 <> STDOUT_FILENO /\ fd1 <> STDERR_FILENO /\
    fdt q !! fd1 = None /\
    fdt q' !! fd1 = Some (OFile (abspath (cwd q) name_o) O_CREATE_TRUNC).
Proof.
  intros Ho He Hoa Hea Hsame Hno Hne Hopen1 Hopen2 [f1 Hf1] [f2 Hf2] fd1.
  pose proof (fresh_fd_fresh (fdt q)) as Hfresh1. fold fd1 in Hfresh1.
  pose proof (fresh_fd_nonneg (fdt q)) as Hpos1. fold fd1 in Hpos1.
  assert (Hne1 : fd1 <> STDOUT_FILENO) by (intros Heq; rewrite Heq in Hfresh1; congruence).
  assert (Hne2 : fd1 <> STDERR_FILENO) by (intros Heq; rewrite Heq in Hfresh1; congruence).
  set (file_o := OFile (abspath (cwd q) name_o) O_CREATE_TRUNC).
  set (t1 := <[STDOUT_FILENO := file_o]> (<[fd1 := file_o]> (fdt q))).
  set (fd2 := fresh_fd t1).
  pose proof (fresh_fd_fresh t1) as Hfresh2. fold fd2 in Hfresh2.
  pose proof (fresh_fd_nonneg t1) as Hpos2. fold fd2 in Hpos2.
  assert (Ht1 : t1 !! fd1 = Some file_o).
  { unfold t1. rewrite lookup_insert_ne by congruence. apply lookup_insert_eq. }
  assert (Hne12 : fd1 <> fd2) by (intros Heq; rewrite Heq in Ht1; congruence).
  exists fd2. eexists. split; [ | repeat split; try assumption].
  - intros k. unfold redirect_output.
    rewrite Ho, He, Hoa, Hea, Hsame in *. cbn [non_null andb negb].
    cbn. rewrite Hno. cbn. rewrite Hopen1. cbn. fold fd1 file_o.
    rewrite lookup_fd_nonneg by exact Hpos1. rewrite lookup_insert_eq.
    cbn. rewrite Hne. cbn. rewrite Hopen2. cbn.
    fold t1. fold fd2.
    rewrite lookup_fd_nonneg by exact Hpos2. rewrite lookup_insert_eq. cbn.
    rewrite lookup_fd_nonneg by exact Hpos2.
    match goal with
    | |- context [?t !! fd2] =>
        assert (Hopen : exists g, t !! fd2 = Some g)
    end.
    { destruct (decide (STDERR_FILENO = fd2)) as [Heq | Hneq].
      - rewrite <- Heq. rewrite lookup_insert_eq. eauto.
      - rewrite lookup_insert_ne by exact Hneq. rewrite lookup_insert_eq. eauto. }
    destruct Hopen as [g ->]. reflexivity.
  - cbn. rewrite lookup_delete_ne by congruence.
    rewrite lookup_insert_ne by congruence.
    rewrite lookup_insert_ne by congruence.
    exact Ht1.
Qed.
(** C7: a [OP_SEQUENTIAL] node runs its left child to the end, drops
    the status it returns (the [_] below: any status at all), runs its
    right child from the state the left one left, and returns what the
    right child returns.  While the left child runs, the rest of the
    process is "the right child, then the caller". *)
Theorem C7_sequential_status_is_right_status l r sc level father (kont : continuation Z) p s :
  let c := Command OP_SEQUENTIAL l r sc in
  exec X (parse_command (Some c) level father) kont p s =
  match exec X (parse_command l (level + 1) (Some c))
          (then_run X (fun _ => parse_command r (level + 1) (Some c)) kont) p s with
  | Returned _ p1 s1 => exec X (parse_command r (level + 1) (Some c)) kont p1 s1
  | Terminated t s1 => Terminated t s1
  end.
Proof.
  intros c.
  change (parse_command (Some c) level father)
    with (ret ← parse_command l (level + 1) (Some c);
          ret ← parse_command r (level + 1) (Some c); Ret ret).
  rewrite exec_mbind.
  rewrite (exec_ext X _ _ (then_run X (fun _ => parse_command r (level + 1) (Some c)) kont))
    by (intros; apply then_run_bind_ret).
  destruct (exec X (parse_command l (level + 1) (Some c)) _ p s) as [a p1 s1 | t s1];
    [apply exec_bind_ret | reflexivity].
Qed.

(** C8: a conditional node runs its left child; with
    [OP_CONDITIONAL_ZERO] the right child runs exactly when the left
    status is 0, with [OP_CONDITIONAL_NZERO] exactly when it is not 0.
    When the right child runs the node returns what the right child
    returns; otherwise it returns the left status, in the state the left
    child left. *)
Theorem C8_conditional l r sc level father (kont : continuation Z) p s :
  (let c := Command OP_CONDITIONAL_ZERO l r sc in
   exec X (parse_command (Some c) level father) kont p s =
   match exec X (parse_command l (level + 1) (Some c))
           (then_run X (fun ret => if ret =? 0 then parse_command r (level + 1) (Some c)
                                   else Ret ret) kont) p s with
   | Returned ret p1 s1 =>
       if ret =? 0 then exec X (parse_command r (level + 1) (Some c)) kont p1 s1
       else Returned ret p1 s1
   | Terminated t s1 => Terminated t s1
   end) /\
  (let c := Command OP_CONDITIONAL_NZERO l r sc in
   exec X (parse_command (Some c) level father) kont p s =
   match exec X (parse_command l (level + 1) (Some c))
           (then_run X (fun ret => if negb (ret =? 0) then parse_command r (level + 1) (Some c)
                                   else Ret ret) kont) p s with
   | Returned ret p1 s1 =>
       if negb (ret =? 0) then exec X (parse_command r (level + 1) (Some c)) kont p1 s1
       else Returned ret p1 s1
   | Terminated t s1 => Terminated t s1
   end).
Proof.
  split; intros c.
  - change (parse_command (Some c) level father)
      with (ret ← parse_command l (level + 1) (Some c);
            if ret =? 0 then ret ← parse_command r (level + 1) (Some c); Ret ret
            else Ret ret).
    rewrite exec_mbind.
    rewrite (exec_ext X _ _
               (then_run X (fun ret => if ret =? 0 then parse_command r (level + 1) (Some c)
                                       else Ret ret) kont)).
    + destruct (exec X (parse_command l (level + 1) (Some c)) _ p s) as [a p1 s1 | t s1];
        [ | reflexivity].
      destruct (a =? 0); [apply exec_bind_ret | reflexivity].
    + intros a q s'. unfold then_run. destruct (a =? 0); [ | reflexivity].
      unfold run. rewrite exec_bind_ret. reflexivity.
  - change (parse_command (Some c) level father)
      with (ret ← parse_command l (level + 1) (Some c);
            if negb (ret =? 0) then ret ← parse_command r (level + 1) (Some c); Ret ret
            else Ret ret).
    rewrite exec_mbind.
    rewrite (exec_ext X _ _
               (then_run X (fun ret => if negb (ret =? 0) then parse_command r (level + 1) (Some c)
                                       else Ret ret) kont)).
    + destruct (exec X (parse_command l (level + 1) (Some c)) _ p s) as [a p1 s1 | t s1];
        [ | reflexivity].
      destruct (negb (a =? 0)); [apply exec_bind_ret | reflexivity].
    + intros a q s'. unfold then_run. destruct (negb (a =? 0)); [ | reflexivity].
      unfold run. rewrite exec_bind_ret. reflexivity.
Qed.
(** C9: for a simple command whose verb resolves to [cd]:
    [parse_simple] returns to its caller, and
    - if an output target is present and can be opened for writing, the
      target is afterwards a file of zero bytes;
    - if the directory argument names something that does not exist or
      is not a directory, the status is not 0 and the working directory
      is unchanged;
    - no process is spawned: no pid is handed out, and every new entry of
      the trace is a call of the calling process, none of them a
      [fork]. *)
Theorem C9_cd_builtin sc v level father (kont : continuation Z) p s :
  verb sc = Some v ->
  resolve_word X (verb sc) (environ p) = Some "cd"%string ->
  exists data p' s',
    exec X (parse_simple (Some sc) level father) kont p s = Returned data p' s' /\
    (forall o target fs',
        out sc = Some o ->
        resolve_word X (out sc) (environ p) = Some target ->
        open_fs (fs s) (abspath (cwd p) target) O_CREATE_TRUNC MODE_0644 = Some fs' ->
        exists r w, fs s' !! abspath (cwd p) target = Some (File r w "")) /\
    (forall d dir,
        params sc = Some d ->
        resolve_word X (params sc) (environ p) = Some dir ->
        fs s !! abspath (cwd p) dir <> Some Dir ->
        data <> 0 /\ cwd p' = cwd p) /\
    (next_pid s' = next_pid s /\
     exists evs, trace s' = trace s ++ evs /\
                 Forall (fun ie => ie.1 = pid p /\ is_fork ie.2 = false) evs).
Proof.
  intros Hv Hcmd.
  unfold parse_simple. rewrite Hv in Hcmd |- *. cbn [non_null negb].
  cbn. rewrite Hcmd. cbn.
  destruct (resolve_word X (out sc) (environ p)) as [target | ] eqn:Hout;
    [destruct (open_fs (fs s) (abspath (cwd p) target) O_CREATE_TRUNC MODE_0644)
       as [fs1 | ] eqn:Hopen | ]; cbn;
    try match goal with
        | |- context [lookup_fd ?t ?fd] => destruct (lookup_fd t fd)
        end;
    rewrite exec_bind_ret; unfold shell_cd;
    (destruct (params sc) as [d0 | ] eqn:Hparams;
     [ cbn; destruct (resolve_word X (Some d0) (environ p)) as [dir0 | ] eqn:Hdir; cbn;
       [ match goal with
         | |- context [?f !! abspath (cwd p) dir0] =>
             destruct (f !! abspath (cwd p) dir0) as [[r0 w0 data0 | ] | ] eqn:Hnode
         end | ] | ]);
    cbn; eexists _, _, _; (split; [reflexivity | ]); cbn;
    (split; [ intros wout tout fout Ho Ht Hop; try discriminate; injection Ht as <-;
              rewrite Hopen in Hop; try discriminate; eapply open_fs_trunc; eassumption | ]);
    (split; [ intros wdir tdir Hd Hr Hnd; try discriminate; injection Hr as <-;
              try (exfalso; apply Hnd; first [exact Hnode | eapply open_fs_dir; eassumption]);
              (split; [discriminate | reflexivity]) | ]);
    (split; [reflexivity | ]);
    (eexists; split; [rewrite <- ?app_assoc; reflexivity | repeat constructor]).
Qed.

(** C10: [parse_command] on a [NULL] tree returns -1; a leaf
    ([OP_NONE]) whose simple command is [NULL], or whose verb is [NULL],
    returns 0 and does nothing: the program is the bare [Ret], and running
    it leaves the process and the system, trace included, as they
    were. *)
Theorem C10_null_tree_and_null_leaf level father (kont : continuation Z) p s
    c1 c2 prm i o e fl :
  (parse_command None level father = Ret (-1) /\
   exec X (parse_command None level father) kont p s = Returned (-1) p s) /\
  (parse_command (Some (Command OP_NONE c1 c2 None)) level father = Ret 0 /\
   exec X (parse_command (Some (Command OP_NONE c1 c2 None)) level father) kont p s
   = Returned 0 p s) /\
  (parse_command
     (Some (Command OP_NONE c1 c2 (Some (SimpleCommand None prm i o e fl)))) level father
   = Ret 0 /\
   exec X (parse_command
             (Some (Command OP_NONE c1 c2 (Some (SimpleCommand None prm i o e fl))))
             level father) kont p s
   = Returned 0 p s).
Proof. repeat split; reflexivity. Qed.

End Claims.

(** ** Runs in the concrete world *)

(** [killed]: the child 101 ends by signal 9; the shell, process 100,
    reaps it and is aborted on the second [free] of [command]. *)
Lemma C1_witness :
  exec world (parse_simple (Some killed_cmd) 0 None) exits_with_zero shell boot =
  Terminated (Signaled SIGABRT)
    (System (fs boot) 102 0 ∅
       [(100, EFork 101);
        (101, EExecvp "killed" ["killed"%string] (fdt shell) true);
        (100, EWaitpid 101 101 9);
        (100, EFault SIGABRT)]).
Proof.
  destruct (C1_signaled_child_aborts_caller world killed_cmd (lit 1000 "killed") "killed"
              0 None exits_with_zero shell boot eq_refl eq_refl eq_refl)
    as (q0 & s0 & q1 & s1 & Hin & Hout & Hsig).
  specialize (Hin ends_here). vm_compute in Hin. injection Hin as <- <-.
  specialize (Hout ends_here). vm_compute in Hout. injection Hout as <- <-.
  rewrite (Hsig 9 (fs boot)).
  - vm_compute. reflexivity.
  - vm_compute. discriminate.
  - vm_compute. reflexivity.
Defined.

(** [nosuch] as the left child of a sequence whose right child is
    [touch x]: the child 101 of the failed launch forks 102 and runs
    [touch x] itself, then ends as the shell does, with status 0, which
    is what the parent returns for [nosuch]. *)
Lemma C2_witness :
  exec world (parse_simple (Some nosuch_cmd) 1 None)
    (then_run world (fun _ => parse_command (Some (leaf touch_x)) 1 None) exits_with_zero)
    shell boot =
  Returned 0 shell
    (System (<["/home/x"%string := File true true ""]> (fs boot)) 103 0 ∅
       [(100, EFork 101);
        (101, EExecvp "nosuch" ["nosuch"%string] (fdt shell) false);
        (101, EFork 102);
        (102, EExecvp "touch" ["touch"%string; "x"%string] (fdt shell) true);
        (101, EWaitpid 102 102 0);
        (101, EExit 0);
        (100, EWaitpid 101 101 0)]).
Proof.
  destruct (C2_failed_launch_returns_to_caller world nosuch_cmd (lit 1000 "nosuch") "nosuch"
              1 None
              (then_run world (fun _ => parse_command (Some (leaf touch_x)) 1 None)
                 exits_with_zero)
              shell boot eq_refl eq_refl eq_refl)
    as (q0 & s0 & q1 & s1 & Hin & Hout & _ & Hnone).
  specialize (Hin ends_here). vm_compute in Hin. injection Hin as <- <-.
  specialize (Hout ends_here). vm_compute in Hout. injection Hout as <- <-.
  rewrite Hnone.
  - vm_compute. reflexivity.
  - vm_compute. reflexivity.
Defined.

(** C3 on [true | exit2]. *)
Lemma C3_witness :
  exists child2 t1 t2 p' s' tr,
    exec world
      (parse_command (Some (Command OP_PIPE (Some (leaf true_cmd)) (Some (leaf exit2_cmd)) None))
         0 None)
      exits_with_zero shell boot =
    Returned (if WIFEXITED (wstatus t2) then to_bool (WEXITSTATUS (wstatus t2)) else 1) p' s' /\
    101 <> child2 /\
    trace s' = tr ++ [(100, EWaitpid 101 101 (wstatus t1));
                      (100, EWaitpid child2 child2 (wstatus t2))].
Proof.
  apply (C3_pipe_returns_bool_of_right_status world (Some (leaf true_cmd))
           (Some (leaf exit2_cmd)) None 0 None exits_with_zero shell boot).
  vm_compute. reflexivity.
Defined.

(** The whole run of [true | exit2]: the parent waits for both
    children, 101 and 103; the right child 103 ends with exit code 2
    (wait status 512), and the node returns 1, the [bool] that
    [run_on_pipe] makes of the 2. *)
Example run_pipe_true_exit2 :
  exec world (parse_command (Some (node OP_PIPE (leaf true_cmd) (leaf exit2_cmd))) 0 None)
    exits_with_zero shell boot =
  Returned 1 shell
    (System (fs boot) 105 1 ∅
       [(100, EPipe 3 4);
        (100, EFork 101);
        (101, EClose 3 0);
        (101, EDup2 4 1 1);
        (101, EFork 102);
        (102, EExecvp "true" ["true"%string]
                (<[4 := OPipe 0 WRITE]> (<[1 := OPipe 0 WRITE]> (fdt shell))) true);
        (101, EWaitpid 102 102 0);
        (101, EExit 0);
        (100, EFork 103);
        (103, EClose 4 0);
        (103, EDup2 3 0 0);
        (103, EFork 104);
        (104, EExecvp "exit2" ["exit2"%string]
                (<[3 := OPipe 0 READ]> (<[0 := OPipe 0 READ]> (fdt shell))) true);
        (103, EWaitpid 104 104 (wstatus (Exited 2)));
        (103, EExit 2);
        (100, EClose 3 0);
        (100, EClose 4 0);
        (100, EWaitpid 101 101 (wstatus (Exited 0)));
        (100, EWaitpid 103 103 (wstatus (Exited 2)))]).
Proof. vm_compute. reflexivity. Qed.

(** C4 on the [OP_PARALLEL] node of [(true & false) ; touch x], whose
    caller goes on with [touch x]: the left command returns 0 in child
    101, and that child then runs [touch x] before it ends. *)
Lemma C4_witness :
  exec world
    (parse_command (Some (Command OP_PARALLEL (Some (leaf true_cmd)) (Some (leaf false_cmd)) None))
       1 (Some parallel_then_touch))
    (then_run world (fun _ => parse_command (Some (leaf touch_x)) 1 (Some parallel_then_touch))
       exits_with_zero)
    shell boot =
  Returned 0 shell
    (System (<["/home/x"%string := File true true ""]> (fs boot)) 105 0 ∅
       [(100, EFork 101);
        (101, EFork 102);
        (102, EExecvp "true" ["true"%string] (fdt shell) true);
        (101, EWaitpid 102 102 0);
        (101, EFork 103);
        (103, EExecvp "touch" ["touch"%string; "x"%string] (fdt shell) true);
        (101, EWaitpid 103 103 0);
        (101, EExit 0);
        (100, EFork 104);
        (104, EExecvp "false" ["false"%string] (fdt shell) true);
        (100, EWaitpid 104 104 (wstatus (Exited 1)));
        (100, EWaitpid 101 101 (wstatus (Exited 0)))]).
Proof.
  etransitivity.
  - apply (C4_parallel_child_returns_to_caller world (Some (leaf true_cmd))
             (Some (leaf false_cmd)) None 1 (Some parallel_then_touch)
             (then_run world
                (fun _ => parse_command (Some (leaf touch_x)) 1 (Some parallel_then_touch))
                exits_with_zero)
             shell boot 0 (set_pid 101 shell)
             (System (fs boot) 103 0 ∅
                [(100, EFork 101);
                 (101, EFork 102);
                 (102, EExecvp "true" ["true"%string] (fdt shell) true);
                 (101, EWaitpid 102 102 0)])).
    vm_compute. reflexivity.
  - vm_compute. reflexivity.
Defined.

(** The whole run of [(true & false) ; touch x]: the forked child 101
    runs the left command [true], returns from [run_in_parallel] and goes
    on with the parent's code: it runs [touch x] (process 103) and ends
    only when the shell ends.  The parent runs [false], waits for 101,
    and runs [touch x] once more. *)
Example run_parallel_then_touch :
  exec world
    (parse_command
       (Some (node OP_SEQUENTIAL (node OP_PARALLEL (leaf true_cmd) (leaf false_cmd))
                (leaf touch_x))) 0 None)
    exits_with_zero shell boot =
  Returned 0 shell
    (System (<["/home/x"%string := File true true ""]> (fs boot)) 106 0 ∅
       [(100, EFork 101);
        (101, EFork 102);
        (102, EExecvp "true" ["true"%string] (fdt shell) true);
        (101, EWaitpid 102 102 0);
        (101, EFork 103);
        (103, EExecvp "touch" ["touch"%string; "x"%string] (fdt shell) true);
        (101, EWaitpid 103 103 0);
        (101, EExit 0);
        (100, EFork 104);
        (104, EExecvp "false" ["false"%string] (fdt shell) true);
        (100, EWaitpid 104 104 (wstatus (Exited 1)));
        (100, EWaitpid 101 101 (wstatus (Exited 0)));
        (100, EFork 105);
        (105, EExecvp "touch" ["touch"%string; "x"%string] (fdt shell) true);
        (100, EWaitpid 105 105 0)]).
Proof. vm_compute. reflexivity. Qed.

(** C5, as stated, fails on [true < missing]: the target does not
    exist, yet [true] is launched, with the terminal still on standard
    input, and the status is 0. *)
Lemma C5_counterexample :
  missing_or_unreadable (fs boot) (abspath (cwd shell) "missing") /\
  exec world (parse_command (Some (leaf true_from_missing)) 0 None) exits_with_zero
    shell boot =
  Returned 0 shell
    (System (fs boot) 102 0 ∅
       [(100, EFork 101);
        (101, EOpen (Some "missing"%string) O_RDONLY (-1));
        (101, EDup2 (-1) STDIN_FILENO (-1));
        (101, EClose (-1) (-1));
        (101, EExecvp "true" ["true"%string] (fdt shell) true);
        (100, EWaitpid 101 101 0)]).
Proof.
  split.
  - left. vm_compute. reflexivity.
  - vm_compute. reflexivity.
Qed.

(** The amended C5 on [true < missing]. *)
Lemma C5_witness :
  exec world (parse_simple (Some true_from_missing) 0 None) exits_with_zero shell boot =
  Returned 0 shell
    (System (fs boot) 102 0 ∅
       [(100, EFork 101);
        (101, EOpen (Some "missing"%string) O_RDONLY (-1));
        (101, EDup2 (-1) STDIN_FILENO (-1));
        (101, EClose (-1) (-1));
        (101, EExecvp "true" ["true"%string] (fdt shell) true);
        (100, EWaitpid 101 101 0)]).
Proof.
  assert (Hmiss : missing_or_unreadable (fs boot) (abspath (cwd shell) "missing"))
    by (left; vm_compute; reflexivity).
  destruct (C5_failed_input_redirection_is_ignored world true_from_missing
              (lit 1000 "true") (lit 3000 "missing") "true" "missing" 0 None
              exits_with_zero shell boot eq_refl eq_refl eq_refl eq_refl eq_refl Hmiss)
    as (_ & q1 & s1 & Hout & Hexit).
  specialize (Hout ends_here). vm_compute in Hout. injection Hout as <- <-.
  rewrite (Hexit 0 (fs boot)).
  - vm_compute. reflexivity.
  - vm_compute. reflexivity.
Defined.

(** C6 on the redirections of [true > o 2> e], run in the shell's own
    process: descriptor 3 was free before and is open on [/home/o]
    after. *)
Lemma C6_witness :
  exists q' s',
    exec world (redirect_output true_to_o_and_e) ends_here shell boot = Returned tt q' s' /\
    fdt shell !! 3 = None /\
    fdt q' !! 3 = Some (OFile "/home/o" O_CREATE_TRUNC).
Proof.
  destruct (C6_first_descriptor_is_never_closed world true_to_o_and_e
              (lit 4000 "o") (lit 5000 "e") "o" "e"
              (<["/home/o"%string := File true true ""]> (fs boot))
              (<["/home/e"%string := File true true ""]>
                 (<["/home/o"%string := File true true ""]> (fs boot)))
              shell boot)
    as (fd2 & q' & Hrun & _ & _ & _ & Hfree & Hopen);
    try (vm_compute; reflexivity);
    try (exists OTty; vm_compute; reflexivity).
  exists q'. eexists. split; [apply Hrun | ].
  split; [exact Hfree | exact Hopen].
Defined.

(** The whole run of [true > o 2> e]: descriptor 3, opened for [o], is
    duplicated onto standard output and never closed; only descriptor 4,
    opened for [e], is.  The program image starts with 3 still open on
    [/home/o]. *)
Example run_two_targets :
  exec world (parse_command (Some (leaf true_to_o_and_e)) 0 None) exits_with_zero
    shell boot =
  Returned 0 shell
    (System
       (<["/home/e"%string := File true true ""]>
          (<["/home/o"%string := File true true ""]> (fs boot))) 102 0 ∅
       [(100, EFork 101);
        (101, EOpen (Some "o"%string) O_CREATE_TRUNC 3);
        (101, EDup2 3 STDOUT_FILENO 1);
        (101, EOpen (Some "e"%string) O_CREATE_TRUNC 4);
        (101, EDup2 4 STDERR_FILENO 2);
        (101, EClose 4 0);
        (101, EExecvp "true" ["true"%string]
                (<[3 := OFile "/home/o" O_CREATE_TRUNC]>
                   (<[2 := OFile "/home/e" O_CREATE_TRUNC]>
                      (<[1 := OFile "/home/o" O_CREATE_TRUNC]> (fdt shell)))) true);
        (100, EWaitpid 101 101 0)]).
Proof. vm_compute. reflexivity. Qed.

(** C9 on [cd nodir > o]: [o] is created empty, the status is not 0,
    the working directory stays [/home], no pid is handed out. *)
Lemma C9_witness :
  exists data p' s',
    exec world (parse_simple (Some cd_nodir_to_o) 0 None) exits_with_zero shell boot
    = Returned data p' s' /\
    (exists r w, fs s' !! "/home/o"%string = Some (File r w "")) /\
    (data <> 0 /\ cwd p' = "/home"%string) /\
    next_pid s' = 101%positive.
Proof.
  destruct (C9_cd_builtin world cd_nodir_to_o (lit 1000 "cd") 0 None exits_with_zero
              shell boot eq_refl eq_refl)
    as (data & p' & s' & Hrun & Hfile & Hdir & Hpid & _).
  exists data, p', s'. split; [exact Hrun | ].
  split.
  { apply (Hfile (lit 4000 "o") "o"%string
             (<["/home/o"%string := File true true ""]> (fs boot)));
      vm_compute; reflexivity. }
  split.
  { apply (Hdir (lit 2000 "nodir") "nodir"%string); [reflexivity | reflexivity | ].
    vm_compute. discriminate. }
  exact Hpid.
Defined.

(** ** Further properties of [cmd.c] *)

(** *** Wait statuses and [bool] results *)

Lemma WEXITSTATUS_range status : 0 <= WEXITSTATUS status <= 255.
Proof.
  unfold WEXITSTATUS. rewrite Z.shiftr_land.
  change (Z.shiftr 65280 8) with (Z.ones 8).
  rewrite Z.land_ones by lia.
  pose proof (Z.mod_pos_bound (Z.shiftr status 8) (2 ^ 8) ltac:(lia)). lia.
Qed.

Lemma to_bool_range v : to_bool v = 0 \/ to_bool v = 1.
Proof. unfold to_bool. destruct (v =? 0); auto. Qed.

Lemma open_fs_keeps_dir (f f' : gmap string inode) path flags mode d :
  open_fs f path flags mode = Some f' -> f !! d = Some Dir -> f' !! d = Some Dir.
Proof.
  unfold open_fs. intros Hopen Hdir.
  assert (Hins : forall i, f !! path <> Some Dir -> <[path := i]> f !! d = Some Dir).
  { intros i Hpath. rewrite lookup_insert_ne; [exact Hdir | ]. intros ->. congruence. }
  destruct (f !! path) as [[r w data | ] | ] eqn:Hpath;
    repeat match type of Hopen with
           | (if ?b then _ else _) = _ => destruct b
           end;
    try discriminate; injection Hopen as <-; try exact Hdir; apply Hins; congruence.
Qed.

Lemma set_fs_same s : set_fs (fs s) s = s.
Proof. destruct s; reflexivity. Qed.

(** Case analysis on the innermost scrutinee of the goal. *)
Ltac destruct_inner :=
  repeat match goal with
         | |- context [match ?x with _ => _ end] =>
             lazymatch x with
             | context [match _ with _ => _ end] => fail
             | _ => destruct x eqn:?
             end
         end.

Section Further.

Variable X : externals.

(** A bind that returns: its first part returned, and its second part
    returned from there. *)
Lemma exec_mbind_returned {A B} (m : prog A) (f : A -> prog B) (kont : continuation B)
    p s v p' s' :
  exec X (m ≫= f) kont p s = Returned v p' s' ->
  exists a p1 s1,
    exec X m (then_run X f kont) p s = Returned a p1 s1 /\
    exec X (f a) kont p1 s1 = Returned v p' s'.
Proof.
  rewrite exec_mbind.
  destruct (exec X m (then_run X f kont) p s) as [a p1 s1 | t s1]; [eauto | discriminate].
Qed.

(** *** Redirections *)

(** The block that every single-stream redirection is made of: resolve
    the word, open the file, put it on [target], close the descriptor
    [open] returned. *)
Lemma exec_open_dup2_close (w : option word_t) flags mode target name fs'
    (k : continuation unit) q s :
  resolve_word X w (environ q) = Some name ->
  open_fs (fs s) (abspath (cwd q) name) flags mode = Some fs' ->
  0 <= target ->
  is_Some (fdt q !! target) ->
  exec X (file ← get_word w;
          fd ← open file flags mode;
          _ ← dup2 fd target;
          _ ← close fd;
          Ret tt) k q s =
  Returned tt (set_fdt (<[target := OFile (abspath (cwd q) name) flags]> (fdt q)) q)
    (record (pid q) (EClose (fresh_fd (fdt q)) 0)
       (record (pid q) (EDup2 (fresh_fd (fdt q)) target target)
          (record (pid q) (EOpen (Some name) flags (fresh_fd (fdt q))) (set_fs fs' s)))).
Proof.
  intros Hname Hopen Htarget [f Hf].
  pose proof (fresh_fd_fresh (fdt q)) as Hfresh.
  pose proof (fresh_fd_nonneg (fdt q)) as Hpos.
  set (fd := fresh_fd (fdt q)) in *.
  assert (Hne : fd <> target) by (intros ->; congruence).
  cbn. rewrite Hname. cbn. rewrite Hopen. cbn. fold fd.
  rewrite lookup_fd_nonneg by exact Hpos. rewrite lookup_insert_eq.
  destruct (Z.ltb_spec target 0) as [ | _]; [lia | ]. cbn.
  rewrite lookup_fd_nonneg by exact Hpos.
  rewrite lookup_insert_ne by congruence. rewrite lookup_insert_eq. cbn.
  rewrite delete_insert_ne by congruence.
  rewrite delete_insert_id by exact Hfresh. reflexivity.
Qed.

(** X1: [< file] on a file that exists and is readable, in a process
    whose standard input is open: the file is opened read-only on the
    lowest free descriptor, standard input is rebound to it, that
    descriptor is closed again; nothing else of the descriptor table
    changes and the file system is left as it was. *)
Theorem X1_input_redirection_rebinds_stdin sc w name wr data (k : continuation unit) q s :
  in_ sc = Some w ->
  resolve_word X (in_ sc) (environ q) = Some name ->
  fs s !! abspath (cwd q) name = Some (File true wr data) ->
  is_Some (fdt q !! STDIN_FILENO) ->
  exec X (redirect_input sc) k q s =
  Returned tt (set_fdt (<[STDIN_FILENO := OFile (abspath (cwd q) name) O_RDONLY]> (fdt q)) q)
    (record (pid q) (EClose (fresh_fd (fdt q)) 0)
       (record (pid q) (EDup2 (fresh_fd (fdt q)) STDIN_FILENO STDIN_FILENO)
          (record (pid q) (EOpen (Some name) O_RDONLY (fresh_fd (fdt q))) s))).
Proof.
  intros Hin Hname Hfile Hstd.
  unfold redirect_input. rewrite Hin in Hname |- *.
  rewrite (exec_open_dup2_close (Some w) O_RDONLY 0 STDIN_FILENO name (fs s) k q s);
    try assumption.
  - rewrite set_fs_same. reflexivity.
  - unfold open_fs. rewrite Hfile. reflexivity.
  - unfold STDIN_FILENO. lia.
Qed.

(** X2: with an output target and [IO_OUT_APPEND] the first branch of
    the chain is taken whatever else the command has: the target is
    opened with [O_WRONLY | O_CREAT | O_APPEND] and only standard output
    is rebound, so an error target of the same command is not
    redirected at all.  A target that exists already keeps its
    contents. *)
Theorem X2_append_output_only sc o name fs' (k : continuation unit) q s :
  out sc = Some o ->
  has_flag (io_flags sc) IO_OUT_APPEND = true ->
  resolve_word X (out sc) (environ q) = Some name ->
  open_fs (fs s) (abspath (cwd q) name) O_CREATE_APPEND MODE_0644 = Some fs' ->
  is_Some (fdt q !! STDOUT_FILENO) ->
  exec X (redirect_output sc) k q s =
  Returned tt
    (set_fdt (<[STDOUT_FILENO := OFile (abspath (cwd q) name) O_CREATE_APPEND]> (fdt q)) q)
    (record (pid q) (EClose (fresh_fd (fdt q)) 0)
       (record (pid q) (EDup2 (fresh_fd (fdt q)) STDOUT_FILENO STDOUT_FILENO)
          (record (pid q) (EOpen (Some name) O_CREATE_APPEND (fresh_fd (fdt q)))
             (set_fs fs' s)))) /\
  (forall i, fs s !! abspath (cwd q) name = Some i -> fs' = fs s).
Proof.
  intros Hout Hflag Hname Hopen Hstd. split.
  - unfold redirect_output. rewrite Hout in Hname |- *. rewrite Hflag. cbn [non_null andb].
    apply exec_open_dup2_close; try assumption. unfold STDOUT_FILENO. lia.
  - intros i Hi. unfold open_fs in Hopen. rewrite Hi in Hopen.
    change (has_flag O_CREATE_APPEND O_TRUNC) with false in Hopen.
    destruct i as [r w data | ];
      repeat match type of Hopen with
             | (if ?b then _ else _) = _ => destruct b
             end; congruence.
Qed.

(** X3: when the first branch is not taken and the command has an
    error target with [IO_ERR_APPEND], the second branch is: the target
    is opened for appending and only standard error is rebound.  An
    output target without its append flag, as in [> o 2>> e], is not
    redirected. *)
Theorem X3_append_error_only sc e name fs' (k : continuation unit) q s :
  err sc = Some e ->
  non_null (out sc) && has_flag (io_flags sc) IO_OUT_APPEND = false ->
  has_flag (io_flags sc) IO_ERR_APPEND = true ->
  resolve_word X (err sc) (environ q) = Some name ->
  open_fs (fs s) (abspath (cwd q) name) O_CREATE_APPEND MODE_0644 = Some fs' ->
  is_Some (fdt q !! STDERR_FILENO) ->
  exec X (redirect_output sc) k q s =
  Returned tt
    (set_fdt (<[STDERR_FILENO := OFile (abspath (cwd q) name) O_CREATE_APPEND]> (fdt q)) q)
    (record (pid q) (EClose (fresh_fd (fdt q)) 0)
       (record (pid q) (EDup2 (fresh_fd (fdt q)) STDERR_FILENO STDERR_FILENO)
          (record (pid q) (EOpen (Some name) O_CREATE_APPEND (fresh_fd (fdt q)))
             (set_fs fs' s)))).
Proof.
  intros Herr Hfirst Hflag Hname Hopen Hstd.
  unfold redirect_output. rewrite Hfirst. rewrite Herr in Hname |- *. rewrite Hflag.
  cbn [non_null andb].
  apply exec_open_dup2_close; try assumption. unfold STDERR_FILENO. lia.
Qed.

(** X4: [&> file] (output and error target are the same string, no
    append flag): the file is opened once with
    [O_WRONLY | O_CREAT | O_TRUNC], standard output and standard error
    are both rebound to that one open file, and the descriptor [open]
    returned is closed. *)
Theorem X4_combined_output_and_error sc o e name fs' (k : continuation unit) q s :
  out sc = Some o ->
  err sc = Some e ->
  addr (string_ o) = addr (string_ e) ->
  has_flag (io_flags sc) IO_OUT_APPEND = false ->
  has_flag (io_flags sc) IO_ERR_APPEND = false ->
  resolve_word X (out sc) (environ q) = Some name ->
  open_fs (fs s) (abspath (cwd q) name) O_CREATE_TRUNC MODE_0644 = Some fs' ->
  is_Some (fdt q !! STDOUT_FILENO) ->
  is_Some (fdt q !! STDERR_FILENO) ->
  exec X (redirect_output sc) k q s =
  Returned tt
    (set_fdt
       (<[STDERR_FILENO := OFile (abspath (cwd q) name) O_CREATE_TRUNC]>
          (<[STDOUT_FILENO := OFile (abspath (cwd q) name) O_CREATE_TRUNC]> (fdt q))) q)
    (record (pid q) (EClose (fresh_fd (fdt q)) 0)
       (record (pid q) (EDup2 (fresh_fd (fdt q)) STDERR_FILENO STDERR_FILENO)
          (record (pid q) (EDup2 (fresh_fd (fdt q)) STDOUT_FILENO STDOUT_FILENO)
             (record (pid q) (EOpen (Some name) O_CREATE_TRUNC (fresh_fd (fdt q)))
                (set_fs fs' s))))).
Proof.
  intros Hout Herr Hsame Hoa Hea Hname Hopen [f1 Hf1] [f2 Hf2].
  pose proof (fresh_fd_fresh (fdt q)) as Hfresh.
  pose proof (fresh_fd_nonneg (fdt q)) as Hpos.
  set (fd := fresh_fd (fdt q)) in *.
  assert (Hne1 : fd <> STDOUT_FILENO) by (intros Heq; rewrite Heq in Hfresh; congruence).
  assert (Hne2 : fd <> STDERR_FILENO) by (intros Heq; rewrite Heq in Hfresh; congruence).
  unfold redirect_output. rewrite Hout in Hname |- *. rewrite Herr, Hoa, Hea.
  cbn [non_null andb negb same_string]. rewrite Hsame, Z.eqb_refl.
  cbn. rewrite Hname. cbn. rewrite Hopen. cbn. fold fd.
  rewrite lookup_fd_nonneg by exact Hpos. rewrite lookup_insert_eq. cbn.
  rewrite lookup_fd_nonneg by exact Hpos.
  rewrite lookup_insert_ne by congruence. rewrite lookup_insert_eq. cbn.
  rewrite lookup_fd_nonneg by exact Hpos.
  rewrite lookup_insert_ne by congruence. rewrite lookup_insert_ne by congruence.
  rewrite lookup_insert_eq. cbn.
  rewrite delete_insert_ne by congruence. rewrite delete_insert_ne by congruence.
  rewrite delete_insert_id by exact Hfresh. reflexivity.
Qed.

(** X5: [> file] alone (no error target, no append flag), in a process
    whose standard output is open: the target is opened with
    [O_WRONLY | O_CREAT | O_TRUNC], only standard output is rebound, the
    descriptor is closed, and the target is left as an empty regular
    file. *)
Theorem X5_plain_output sc w name fs' (k : continuation unit) q s :
  out sc = Some w ->
  err sc = None ->
  has_flag (io_flags sc) IO_OUT_APPEND = false ->
  resolve_word X (out sc) (environ q) = Some name ->
  open_fs (fs s) (abspath (cwd q) name) O_CREATE_TRUNC MODE_0644 = Some fs' ->
  is_Some (fdt q !! STDOUT_FILENO) ->
  exec X (redirect_output sc) k q s =
  Returned tt
    (set_fdt (<[STDOUT_FILENO := OFile (abspath (cwd q) name) O_CREATE_TRUNC]> (fdt q)) q)
    (record (pid q) (EClose (fresh_fd (fdt q)) 0)
       (record (pid q) (EDup2 (fresh_fd (fdt q)) STDOUT_FILENO STDOUT_FILENO)
          (record (pid q) (EOpen (Some name) O_CREATE_TRUNC (fresh_fd (fdt q)))
             (set_fs fs' s)))) /\
  exists r wr, fs' !! abspath (cwd q) name = Some (File r wr "").
Proof.
  intros Hone Hother Hflag Hname Hopen Hstd.
  split; [ | eapply open_fs_trunc; eassumption].
  unfold redirect_output. rewrite Hone in Hname |- *. rewrite Hother, Hflag.
  cbn [non_null andb negb same_string].
  apply exec_open_dup2_close; try assumption. unfold STDOUT_FILENO. lia.
Qed.

(** X6: [2> file] alone (no output target, no append flag), in a
    process whose standard error is open: the last branch of the chain
    does for standard error what [> file] does for standard output. *)
Theorem X6_plain_error sc w name fs' (k : continuation unit) q s :
  err sc = Some w ->
  out sc = None ->
  has_flag (io_flags sc) IO_ERR_APPEND = false ->
  resolve_word X (err sc) (environ q) = Some name ->
  open_fs (fs s) (abspath (cwd q) name) O_CREATE_TRUNC MODE_0644 = Some fs' ->
  is_Some (fdt q !! STDERR_FILENO) ->
  exec X (redirect_output sc) k q s =
  Returned tt
    (set_fdt (<[STDERR_FILENO := OFile (abspath (cwd q) name) O_CREATE_TRUNC]> (fdt q)) q)
    (record (pid q) (EClose (fresh_fd (fdt q)) 0)
       (record (pid q) (EDup2 (fresh_fd (fdt q)) STDERR_FILENO STDERR_FILENO)
          (record (pid q) (EOpen (Some name) O_CREATE_TRUNC (fresh_fd (fdt q)))
             (set_fs fs' s)))) /\
  exists r wr, fs' !! abspath (cwd q) name = Some (File r wr "").
Proof.
  intros Hone Hother Hflag Hname Hopen Hstd.
  split; [ | eapply open_fs_trunc; eassumption].
  unfold redirect_output. rewrite Hone in Hname |- *. rewrite Hother, Hflag.
  cbn [non_null andb negb same_string].
  apply exec_open_dup2_close; try assumption. unfold STDERR_FILENO. lia.
Qed.

(** X7: [> file] in a process whose standard output is closed and is
    the lowest free descriptor: [open] returns 1 itself, [dup2(1, 1)]
    changes nothing and [close(1)] closes the file again.  The target
    is created or truncated, but the process leaves the block with its
    descriptor table as it was, standard output still closed: the
    redirection is lost. *)
Theorem X7_output_lost_when_stdout_is_closed sc w name fs' (k : continuation unit) q s :
  out sc = Some w ->
  err sc = None ->
  has_flag (io_flags sc) IO_OUT_APPEND = false ->
  resolve_word X (out sc) (environ q) = Some name ->
  open_fs (fs s) (abspath (cwd q) name) O_CREATE_TRUNC MODE_0644 = Some fs' ->
  fresh_fd (fdt q) = STDOUT_FILENO ->
  exec X (redirect_output sc) k q s =
  Returned tt q
    (record (pid q) (EClose STDOUT_FILENO 0)
       (record (pid q) (EDup2 STDOUT_FILENO STDOUT_FILENO STDOUT_FILENO)
          (record (pid q) (EOpen (Some name) O_CREATE_TRUNC STDOUT_FILENO) (set_fs fs' s)))) /\
  fdt q !! STDOUT_FILENO = None.
Proof.
  intros Hout Herr Hflag Hname Hopen Hfd.
  pose proof (fresh_fd_fresh (fdt q)) as Hfresh. rewrite Hfd in Hfresh.
  split; [ | exact Hfresh].
  unfold redirect_output. rewrite Hout in Hname |- *. rewrite Herr, Hflag.
  cbn [non_null andb negb same_string].
  cbn. rewrite Hname. cbn. rewrite Hopen. cbn. rewrite Hfd.
  unfold lookup_fd. cbn. rewrite lookup_insert_eq. cbn.
  rewrite lookup_insert_eq. cbn.
  rewrite delete_insert_eq, delete_insert_id by exact Hfresh.
  destruct q; reflexivity.
Qed.

(** *** Builtins *)

(** X8: a verb that resolves to [exit] or [quit] ends the calling
    process with status 0, whatever arguments and redirections the
    command has: no call is made before [exit(0)], and the caller of
    [parse_simple] never gets [SHELL_EXIT] back. *)
Theorem X8_exit_ends_the_process sc v cmd level father (kont : continuation Z) p s :
  verb sc = Some v ->
  resolve_word X (verb sc) (environ p) = Some cmd ->
  cmd = "exit"%string \/ cmd = "quit"%string ->
  exec X (parse_simple (Some sc) level father) kont p s =
  Terminated (Exited 0) (record (pid p) (EExit 0) s).
Proof.
  intros Hv Hcmd Hexit. unfold parse_simple. rewrite Hv in Hcmd |- *.
  cbn. rewrite Hcmd. destruct Hexit as [-> | ->]; reflexivity.
Qed.

(** Opening a file and closing it at once: the process ends up as it
    was, no pid is handed out, and what was a directory still is. *)
Lemma exec_open_close {A} (w : option word_t) flags mode (rest : prog A)
    (k : continuation A) q s :
  exists s1,
    exec X (filename ← get_word w;
            output_fd ← open filename flags mode;
            _ ← close output_fd;
            rest) k q s = exec X rest k q s1 /\
    next_pid s1 = next_pid s /\
    (forall d, fs s !! d = Some Dir -> fs s1 !! d = Some Dir).
Proof.
  pose proof (fresh_fd_fresh (fdt q)) as Hfresh.
  pose proof (fresh_fd_nonneg (fdt q)) as Hpos.
  cbn.
  destruct (resolve_word X w (environ q)) as [name | ];
    [destruct (open_fs (fs s) (abspath (cwd q) name) flags mode) as [fs' | ] eqn:Hopen | ]; cbn.
  - rewrite lookup_fd_nonneg by exact Hpos. rewrite lookup_insert_eq. cbn.
    rewrite delete_insert_id by exact Hfresh.
    eexists. split.
    { match goal with
      | |- exec _ _ _ ?pr _ = _ => replace pr with q by (destruct q; reflexivity)
      end. reflexivity. }
    split; [reflexivity | ]. cbn. intros d. apply (open_fs_keeps_dir _ _ _ _ _ _ Hopen).
  - eexists. split; [reflexivity | ]. split; [reflexivity | ]. cbn. auto.
  - eexists. split; [reflexivity | ]. split; [reflexivity | ]. cbn. auto.
Qed.

(** The [cd] branch of [parse_simple]: the output target is opened and
    closed, then [shell_cd] decides. *)
Lemma parse_simple_cd sc v level father (kont : continuation Z) p s :
  verb sc = Some v ->
  resolve_word X (verb sc) (environ p) = Some "cd"%string ->
  exists s1,
    exec X (parse_simple (Some sc) level father) kont p s =
    exec X (shell_cd (params sc)) kont p s1 /\
    next_pid s1 = next_pid s /\
    (forall d, fs s !! d = Some Dir -> fs s1 !! d = Some Dir).
Proof.
  intros Hv Hcmd.
  destruct (exec_open_close (out sc) O_CREATE_TRUNC MODE_0644
              (data ← shell_cd (params sc); Ret data) kont p s)
    as (s1 & Hblock & Hpid & Hdirs).
  exists s1. split; [ | split; assumption].
  rewrite exec_bind_ret in Hblock. rewrite <- Hblock.
  unfold parse_simple. rewrite Hv in Hcmd |- *. cbn [non_null negb].
  cbn [mbind prog_bind bind get_word exec kernel]. rewrite Hcmd. reflexivity.
Qed.

(** [shell_cd] is declared [bool]: whatever [chdir] answers, its caller
    sees 0 or 1, in a process that differs at most in its working
    directory. *)
Lemma shell_cd_returns dir (kont : continuation Z) p s :
  exists data d s',
    exec X (shell_cd dir) kont p s = Returned data (set_cwd d p) s' /\
    (data = 0 \/ data = 1) /\ next_pid s' = next_pid s.
Proof.
  assert (Hsame : set_cwd (cwd p) p = p) by (destruct p; reflexivity).
  destruct dir as [d | ]; cbn [shell_cd mbind prog_bind bind get_word chdir exec kernel].
  - destruct (resolve_word X (Some d) (environ p)) as [path | ];
      [destruct (fs s !! abspath (cwd p) path) as [[r w data | ] | ] | ];
      first [ eexists _, _, _; split; [reflexivity | split; [apply to_bool_range | reflexivity]]
            | eexists; exists (cwd p); eexists; rewrite Hsame;
              split; [reflexivity | split; [apply to_bool_range | reflexivity]] ].
  - eexists; exists (cwd p); eexists; rewrite Hsame.
    split; [reflexivity | split; [apply to_bool_range | reflexivity]].
Qed.

(** X9: [cd dir] where [dir], taken from the working directory, is a
    directory: the working directory becomes [dir] and the status is 0
    ([chdir]'s 0 through the [bool] return type); nothing else of the
    process changes and no child is forked.  The output target the
    command may have is opened and closed before, which cannot turn the
    directory into something else. *)
Theorem X9_cd_changes_directory sc v d dir level father (kont : continuation Z) p s :
  verb sc = Some v ->
  resolve_word X (verb sc) (environ p) = Some "cd"%string ->
  params sc = Some d ->
  resolve_word X (params sc) (environ p) = Some dir ->
  fs s !! abspath (cwd p) dir = Some Dir ->
  exists s',
    exec X (parse_simple (Some sc) level father) kont p s =
    Returned 0 (set_cwd (abspath (cwd p) dir) p) s' /\
    next_pid s' = next_pid s.
Proof.
  intros Hv Hcmd Hd Hdir Hnode.
  destruct (parse_simple_cd sc v level father kont p s Hv Hcmd) as (s1 & -> & Hpid & Hdirs).
  unfold shell_cd. rewrite Hd in Hdir |- *.
  cbn. rewrite Hdir. cbn. rewrite (Hdirs _ Hnode). cbn.
  eexists. split; [reflexivity | exact Hpid].
Qed.

(** X10: [cd] always returns to its caller, with status 0 or 1, in the
    calling process itself: descriptor table, environment and pid are
    as before (the descriptor opened for the output target is closed
    again), only the working directory may differ, and no child is
    forked. *)
Theorem X10_cd_returns_in_the_same_process sc v level father (kont : continuation Z) p s :
  verb sc = Some v ->
  resolve_word X (verb sc) (environ p) = Some "cd"%string ->
  exists data dir s',
    exec X (parse_simple (Some sc) level father) kont p s =
    Returned data (set_cwd dir p) s' /\
    (data = 0 \/ data = 1) /\ next_pid s' = next_pid s.
Proof.
  intros Hv Hcmd.
  destruct (parse_simple_cd sc v level father kont p s Hv Hcmd) as (s1 & -> & Hpid & _).
  destruct (shell_cd_returns (params sc) kont p s1) as (data & dir & s' & Hrun & Hdata & Hpid').
  exists data, dir, s'. split; [exact Hrun | ]. split; [exact Hdata | ].
  rewrite Hpid'. exact Hpid.
Qed.

(** X11: [cd] without an argument does not go to a home directory:
    [shell_cd] returns -1 on the [NULL] argument, which its [bool]
    return type turns into 1, and the process is left as it was. *)
Theorem X11_cd_without_argument sc v level father (kont : continuation Z) p s :
  verb sc = Some v ->
  resolve_word X (verb sc) (environ p) = Some "cd"%string ->
  params sc = None ->
  exists s',
    exec X (parse_simple (Some sc) level father) kont p s = Returned 1 p s' /\
    next_pid s' = next_pid s.
Proof.
  intros Hv Hcmd Hnone.
  destruct (parse_simple_cd sc v level father kont p s Hv Hcmd) as (s1 & -> & Hpid & _).
  unfold shell_cd. rewrite Hnone. exists s1. split; [reflexivity | exact Hpid].
Qed.

(** *** Statuses *)

(** The parent of [run_on_pipe]: it always returns, with 0 or 1, and
    with the process as it was before the node. *)
Lemma run_on_pipe_returns l r level father (kont : continuation Z) p s :
  exists v s',
    exec X (run_on_pipe parse_command l r level father) kont p s = Returned v p s' /\
    (v = 0 \/ v = 1).
Proof.
  unfold run_on_pipe.
  rewrite exec_mbind. cbn [exec pipe kernel].
  pose proof (fresh_fd_fresh (fdt p)) as Hrd.
  pose proof (fresh_fd_nonneg (fdt p)) as Hrd0.
  set (rd := fresh_fd (fdt p)) in *.
  set (t1 := <[rd := OPipe (next_pipe s) READ]> (fdt p)).
  pose proof (fresh_fd_fresh t1) as Hwr.
  pose proof (fresh_fd_nonneg t1) as Hwr0.
  set (wr := fresh_fd t1) in *.
  assert (Hne : rd <> wr).
  { intros Heq. rewrite <- Heq in Hwr. unfold t1 in Hwr.
    rewrite lookup_insert_eq in Hwr. discriminate. }
  assert (Hwr' : fdt p !! wr = None).
  { unfold t1 in Hwr. rewrite lookup_insert_ne in Hwr by exact Hne. exact Hwr. }
  assert (Hclose1 : <[wr := OPipe (next_pipe s) WRITE]> t1 !! rd
                    = Some (OPipe (next_pipe s) READ)).
  { unfold t1. rewrite lookup_insert_ne by congruence. apply lookup_insert_eq. }
  assert (Hclose2 : delete rd (<[wr := OPipe (next_pipe s) WRITE]> t1) !! wr
                    = Some (OPipe (next_pipe s) WRITE)).
  { rewrite lookup_delete_ne by congruence. apply lookup_insert_eq. }
  assert (Hback : delete wr (delete rd (<[wr := OPipe (next_pipe s) WRITE]> t1)) = fdt p).
  { unfold t1. rewrite (delete_insert_ne _ rd wr) by congruence.
    rewrite (delete_insert_id _ rd) by exact Hrd.
    apply delete_insert_id. exact Hwr'. }
  clearbody t1.
  set (s1 := record _ _ _). clearbody s1.
  cbn [mbind prog_bind bind fork exec].
  destruct (finish kont _) as [ta sa].
  cbn [Z.eqb exec].
  destruct (finish kont _) as [tb sb].
  cbn [Z.eqb].
  cbn [mbind prog_bind bind close uninitialized waitpid exec kernel fdt set_fdt pid].
  rewrite lookup_fd_nonneg by exact Hrd0. rewrite Hclose1.
  cbn [fdt set_fdt pid].
  rewrite lookup_fd_nonneg by exact Hwr0. rewrite Hclose2.
  cbn [fdt set_fdt pid cwd environ]. rewrite Hback.
  match goal with
  | |- context [set_fdt (fdt p) ?q] =>
      replace (set_fdt (fdt p) q) with p by (destruct p; reflexivity)
  end.
  repeat (progress (destruct_inner; cbn [exec kernel]));
    eexists _, _; (split; [reflexivity | apply to_bool_range]).
Qed.

(** The parent of [run_in_parallel], when it returns, returns 0 or 1. *)
Lemma run_in_parallel_status l r level father (kont : continuation Z) p s v p' s' :
  exec X (run_in_parallel parse_command l r level father) kont p s = Returned v p' s' ->
  v = 0 \/ v = 1.
Proof.
  unfold run_in_parallel.
  cbn [mbind prog_bind bind fork exec].
  destruct (finish kont _) as [t s2].
  cbn [Z.eqb mbind prog_bind bind uninitialized exec kernel].
  intros H. apply exec_mbind_returned in H as (a & p1 & s1 & _ & H).
  revert H. cbn [mbind prog_bind bind waitpid exec kernel].
  repeat (progress (destruct_inner; cbn [exec kernel]));
    intros [= <- _ _]; apply to_bool_range.
Qed.

(** How programs that hand only values of a kind are put together. *)
Lemma hands_only_ret {A} (P : A -> Prop) (a : A) : P a -> hands_only X P (Ret a).
Proof.
  intros Ha kont kont' p s _. split; [reflexivity | ].
  cbn. intros v p' s' [= <- _ _]. exact Ha.
Qed.

Lemma hands_only_exit {A} (P : A -> Prop) status : hands_only X P (Exit status).
Proof. intros kont kont' p s _. split; [reflexivity | discriminate]. Qed.

Lemma hands_only_fault {A} (P : A -> Prop) sig : hands_only X P (Fault sig).
Proof. intros kont kont' p s _. split; [reflexivity | discriminate]. Qed.

Lemma hands_only_call {A R} (P : A -> Prop) (c : call R) (k : R -> prog A) :
  (forall r, hands_only X P (k r)) -> hands_only X P (Call c k).
Proof.
  intros Hk kont kont' p s Hagree. cbn [exec].
  destruct (kernel X c p s) as [r p1 s1 | sig s1]; [ | split; [reflexivity | discriminate]].
  exact (Hk r kont kont' p1 s1 Hagree).
Qed.

Lemma hands_only_finish {A} (P : A -> Prop) (m : prog A) (kont kont' : continuation A) p s :
  hands_only X P m ->
  (forall v q t, P v -> kont v q t = kont' v q t) ->
  finish kont (exec X m kont p s) = finish kont' (exec X m kont' p s).
Proof.
  intros Hm Hagree. destruct (Hm kont kont' p s Hagree) as [Heq Hin].
  rewrite <- Heq. destruct (exec X m kont p s) as [v p1 s1 | t s1]; [ | reflexivity].
  cbn. apply Hagree. exact (Hin v p1 s1 eq_refl).
Qed.

Lemma hands_only_fork {A} (P : A -> Prop) (k : Z -> prog A) :
  (forall r, hands_only X P (k r)) -> hands_only X P (Fork k).
Proof.
  intros Hk kont kont' p s Hagree. cbn [exec].
  rewrite (hands_only_finish P (k 0) kont kont' _ _ (Hk 0) Hagree).
  destruct (finish kont' _) as [t s2].
  exact (Hk _ kont kont' _ _ Hagree).
Qed.

Lemma hands_only_execvp {A} (P : A -> Prop) file argv (k : Z -> prog A) :
  (forall r, hands_only X P (k r)) -> hands_only X P (Execvp file argv k).
Proof.
  intros Hk kont kont' p s Hagree. cbn [exec].
  destruct (image X file argv p (fs s)) as [[t fs'] | ];
    [split; [reflexivity | discriminate] | ].
  exact (Hk _ kont kont' _ _ Hagree).
Qed.

Lemma hands_only_bind {A B} (Q : A -> Prop) (P : B -> Prop) (m : prog A) (f : A -> prog B) :
  hands_only X Q m -> (forall a, Q a -> hands_only X P (f a)) ->
  hands_only X P (m ≫= f).
Proof.
  intros Hm Hf kont kont' p s Hagree. rewrite !exec_mbind.
  assert (Hthen : forall a q t, Q a -> then_run X f kont a q t = then_run X f kont' a q t).
  { intros a q t Ha. unfold then_run, run.
    exact (hands_only_finish P (f a) kont kont' q t (Hf a Ha) Hagree). }
  destruct (Hm (then_run X f kont) (then_run X f kont') p s Hthen) as [Heq Hin].
  rewrite <- Heq.
  destruct (exec X m (then_run X f kont) p s) as [a p1 s1 | t s1];
    [ | split; [reflexivity | discriminate]].
  exact (Hf a (Hin a p1 s1 eq_refl) kont kont' p1 s1 Hagree).
Qed.

Lemma hands_only_any {A} (m : prog A) : hands_only X (fun _ => True) m.
Proof.
  intros kont kont' p s Hagree. split; [ | trivial].
  apply exec_ext. intros a q t. apply Hagree. exact I.
Qed.

(** Programs that are made of calls, forks and image replacements and
    return values of a kind, taken apart step by step. *)
Ltac hands_only_steps :=
  repeat first
    [ apply hands_only_exit
    | apply hands_only_fault
    | apply hands_only_call; intro
    | apply hands_only_fork; intro
    | apply hands_only_execvp; intro
    | match goal with
      | |- hands_only _ _ (if ?b then _ else _) => destruct b
      | |- hands_only _ _ (match ?x with _ => _ end) => destruct x
      | |- hands_only _ _ (let '(_, _) := ?x in _) => destruct x
      end ].

(** Unfolding the calls of a program up to its first step. *)
Ltac program_steps :=
  cbn [mbind prog_bind bind get_word get_argv uninitialized chdir open close dup2 setenv
       pipe waitpid fork execvp free deref].

Lemma status_of_bool v : status_of X (to_bool v).
Proof. right. right. left. destruct (to_bool_range v) as [-> | ->]; lia. Qed.

Lemma status_of_exit_code status : status_of X (WEXITSTATUS status).
Proof. right. right. left. apply WEXITSTATUS_range. Qed.

Lemma setenv_hands_only name value overwrite :
  hands_only X (status_of X) (setenv name value overwrite).
Proof.
  intros kont kont' p s Hagree. unfold setenv. cbn [exec kernel].
  repeat (progress (destruct_inner; cbn [exec kernel]));
    (split; [reflexivity | try discriminate; intros ? ? ? [= <- _ _]]);
    first [right; left; reflexivity | right; right; left; lia].
Qed.

(** What [parse_simple] hands to its caller: 0, the [bool] of
    [shell_cd], the result of [setenv], an exit code, and in the child
    of a failed [execvp] the size of the argument vector. *)
Lemma parse_simple_hands_only sc level father :
  hands_only X (status_of X) (parse_simple sc level father).
Proof.
  assert (H0 : status_of X 0) by (right; right; left; lia).
  unfold parse_simple.
  destruct sc as [sc | ]; [ | apply hands_only_ret; exact H0].
  destruct (negb (non_null (verb sc))); [apply hands_only_ret; exact H0 | ].
  program_steps. apply hands_only_call. intros command.
  destruct command as [command | ]; program_steps; [ | apply hands_only_fault].
  destruct (String.eqb command "cd").
  { unfold shell_cd. destruct (params sc) as [d | ]; program_steps;
      hands_only_steps; apply hands_only_ret; apply status_of_bool. }
  destruct (String.eqb command "exit" || String.eqb command "quit");
    [unfold shell_exit, exit; program_steps; apply hands_only_exit | ].
  destruct (strchr command "=").
  { destruct (strtok command "=") as [variable rest].
    destruct (strtok rest "=") as [value rest'].
    unfold dangling.
    destruct variable as [variable | ], value as [value | ]; program_steps;
      repeat first [apply setenv_hands_only | apply hands_only_call; intro]. }
  program_steps. apply hands_only_fork. intros pid.
  destruct (pid =? 0).
  - apply (hands_only_bind (fun _ => True)); [apply hands_only_any | intros _ _].
    apply (hands_only_bind (fun _ => True)); [apply hands_only_any | intros _ _].
    unfold launch. program_steps.
    intros kont kont' p s Hagree. cbn [exec kernel].
    assert (Hargc : status_of X (resolve_argv X sc (environ p)).2)
      by (right; right; right; eauto).
    destruct (resolve_argv X sc (environ p)) as [data value]. cbn [snd] in Hargc.
    program_steps. cbn [exec].
    destruct (image X command data p (fs s)) as [[t fs'] | ];
      [split; [reflexivity | discriminate] | ].
    cbn [exec].
    split; [reflexivity | intros ? ? ? [= <- _ _]; exact Hargc].
  - program_steps. hands_only_steps;
      first [ apply hands_only_ret; apply status_of_exit_code | apply hands_only_fault ].
Qed.

(** What a tree that is not [NULL] hands to its caller, by recursion on
    the tree. *)
Lemma parse_command_node_hands_only :
  forall c level father, hands_only X (status_of X) (parse_command_node c level father).
Proof.
  fix IH 1. intros [o l r sc] level father.
  assert (Hminus : status_of X (-1)) by (right; left; reflexivity).
  assert (Hl : forall level father, hands_only X (status_of X) (parse_command l level father)).
  { destruct l as [l' | ]; [exact (IH l') | intros; apply hands_only_ret; exact Hminus]. }
  assert (Hr : forall level father, hands_only X (status_of X) (parse_command r level father)).
  { destruct r as [r' | ]; [exact (IH r') | intros; apply hands_only_ret; exact Hminus]. }
  clear IH.
  change (parse_command_node (Command o l r sc) level father)
    with (parse_command_body parse_command (Command o l r sc) level father).
  unfold parse_command_body. cbn [op cmd1 cmd2 scmd].
  destruct o; cbn [operator_eqb].
  - apply parse_simple_hands_only.
  - apply (hands_only_bind (fun _ => True)); [apply hands_only_any | intros _ _].
    apply (hands_only_bind (status_of X)); [apply Hr | ].
    intros a Ha. apply hands_only_ret. exact Ha.
  - apply (hands_only_bind (status_of X)); [ | intros a Ha; apply hands_only_ret; exact Ha].
    unfold run_in_parallel. cbn [fork mbind prog_bind bind].
    apply hands_only_fork. intros pid. destruct (pid =? 0).
    + apply (hands_only_bind (fun _ => True)); [apply hands_only_any | intros value _].
      apply hands_only_ret. apply status_of_bool.
    + cbn [uninitialized bind]. apply hands_only_call. intros status.
      apply (hands_only_bind (fun _ => True)); [apply hands_only_any | intros value _].
      cbn [waitpid bind]. hands_only_steps; apply hands_only_ret; apply status_of_bool.
  - apply (hands_only_bind (status_of X)); [apply Hl | ].
    intros a Ha. destruct (a =? 0); [ | apply hands_only_ret; exact Ha].
    apply (hands_only_bind (status_of X)); [apply Hr | ].
    intros b Hb. apply hands_only_ret. exact Hb.
  - apply (hands_only_bind (status_of X)); [apply Hl | ].
    intros a Ha. destruct (negb (a =? 0)); [ | apply hands_only_ret; exact Ha].
    apply (hands_only_bind (status_of X)); [apply Hr | ].
    intros b Hb. apply hands_only_ret. exact Hb.
  - apply (hands_only_bind (status_of X)); [ | intros a Ha; apply hands_only_ret; exact Ha].
    unfold run_on_pipe. cbn [pipe mbind prog_bind bind].
    apply hands_only_call. intros [ret [fd0 fd1]].
    cbn [fork bind]. apply hands_only_fork. intros pid. destruct (pid =? 0).
    + cbn [close dup2 bind]. apply hands_only_call. intros c0.
      apply hands_only_call. intros d0.
      apply (hands_only_bind (fun _ => True)); [apply hands_only_any | intros value _].
      apply hands_only_exit.
    + apply hands_only_fork. intros pid2. destruct (pid2 =? 0).
      * cbn [close dup2 bind]. apply hands_only_call. intros c0.
        apply hands_only_call. intros d0.
        apply (hands_only_bind (fun _ => True)); [apply hands_only_any | intros value _].
        apply hands_only_exit.
      * cbn [close uninitialized waitpid bind].
        hands_only_steps; apply hands_only_ret; apply status_of_bool.
  - apply hands_only_ret. left. reflexivity.
Qed.

(** X12: the parent of a pipe always gets through the node, whatever
    the two commands are and however the children end: it returns 0 or
    1 in the calling process exactly as that was before the node, both
    ends of the pipe closed again and every other descriptor, the
    working directory and the environment untouched. *)
Theorem X12_pipe_leaves_the_caller_as_it_was l r sc level father (kont : continuation Z) p s :
  exists v s',
    exec X (parse_command (Some (Command OP_PIPE l r sc)) level father) kont p s =
    Returned v p s' /\ (v = 0 \/ v = 1).
Proof.
  rewrite parse_command_pipe, exec_bind_ret. apply run_on_pipe_returns.
Qed.

(** X13: an external command leaves the calling process in one of two
    ways, decided by how its child [t] ended.  When the child exited,
    the command returns the exit code, a number between 0 and 255, in
    the calling process exactly as that was (redirections, the argument
    vector and the program touch only the child).  When the child did
    not exit, no status is returned: the calling process is aborted on
    the second [free] of [command].  Either way the child has been
    waited for and is not left behind as a zombie. *)
Theorem X13_external_command_returns_or_aborts sc v cmd level father (kont : continuation Z)
    p s :
  verb sc = Some v ->
  resolve_word X (verb sc) (environ p) = Some cmd ->
  external_command cmd = true ->
  exists t s2,
    let s' := reaped (pid p) (Z.pos (next_pid s)) t s2 in
    exec X (parse_simple (Some sc) level father) kont p s =
    (if WIFEXITED (wstatus t)
     then Returned (WEXITSTATUS (wstatus t)) p s'
     else Terminated (Signaled SIGABRT) (record (pid p) (EFault SIGABRT) s')) /\
    0 <= WEXITSTATUS (wstatus t) <= 255 /\
    zombies s' !! Z.pos (next_pid s) = None.
Proof.
  intros Hv Hcmd Hext.
  destruct (parse_simple_external X sc level father kont p s v cmd Hv Hcmd Hext)
    as (q0 & s0 & q1 & s1 & _ & _ & _ & _ & _ & Hrun).
  rewrite Hrun. destruct (run X (launch sc cmd) kont q1 s1) as [t s2].
  exists t, s2. split; [reflexivity | ]. split; [apply WEXITSTATUS_range | ].
  destruct s2. cbn. apply lookup_delete_eq.
Qed.

(** X14: a [OP_PARALLEL] node that returns to its caller returns 0 or
    1, never an exit code above 1: [run_in_parallel] is declared
    [bool]. *)
Theorem X14_parallel_returns_a_bool l r sc level father (kont : continuation Z) p s v p' s' :
  exec X (parse_command (Some (Command OP_PARALLEL l r sc)) level father) kont p s =
  Returned v p' s' ->
  v = 0 \/ v = 1.
Proof.
  rewrite parse_command_parallel, exec_bind_ret. apply run_in_parallel_status.
Qed.

(** X15: whatever the tree, every status [parse_command] hands to
    the code that called it is [SHELL_EXIT] (a node with an unknown
    operator), -1 (a [NULL] tree, a failed [setenv]), a number between 0
    and 255, or the size of an argument vector, which is what the child
    of a failed [execvp] returns.  This holds of the status returned in
    the calling process and of the statuses with which forked children
    return into the caller's code: the run is the same under two callers
    that differ only on other values. *)
Theorem X15_statuses_handed_to_the_caller c level father :
  hands_only X (status_of X) (parse_command c level father).
Proof.
  destruct c as [c | ]; [apply parse_command_node_hands_only | ].
  apply hands_only_ret. right. left. reflexivity.
Qed.

End Further.

(** The arguments [level] and [father] are passed down the tree and
    never read. *)
Lemma parse_command_node_ignores_level_and_father :
  forall c level father level' father',
    parse_command_node c level father = parse_command_node c level' father'.
Proof.
  fix IH 1. intros [o l r sc] level father level' father'.
  assert (Hl : forall level father level' father',
             parse_command l level father = parse_command l level' father').
  { destruct l as [l' | ]; [exact (IH l') | reflexivity]. }
  assert (Hr : forall level father level' father',
             parse_command r level father = parse_command r level' father').
  { destruct r as [r' | ]; [exact (IH r') | reflexivity]. }
  clear IH.
  change (parse_command_node (Command o l r sc) level father)
    with (parse_command_body parse_command (Command o l r sc) level father).
  change (parse_command_node (Command o l r sc) level' father')
    with (parse_command_body parse_command (Command o l r sc) level' father').
  unfold parse_command_body, run_in_parallel, run_on_pipe. cbn [op cmd1 cmd2 scmd].
  destruct o; cbn [operator_eqb]; try reflexivity.
  - rewrite (Hl (level + 1) _ (level' + 1) (Some (Command OP_SEQUENTIAL l r sc))).
    rewrite (Hr (level + 1) _ (level' + 1) (Some (Command OP_SEQUENTIAL l r sc))).
    reflexivity.
  - rewrite (Hl (level + 1 + 1) _ (level' + 1 + 1) (Some (Command OP_PARALLEL l r sc))).
    rewrite (Hr (level + 1 + 1) _ (level' + 1 + 1) (Some (Command OP_PARALLEL l r sc))).
    reflexivity.
  - rewrite (Hl (level + 1) _ (level' + 1) (Some (Command OP_CONDITIONAL_ZERO l r sc))).
    rewrite (Hr (level + 1) _ (level' + 1) (Some (Command OP_CONDITIONAL_ZERO l r sc))).
    reflexivity.
  - rewrite (Hl (level + 1) _ (level' + 1) (Some (Command OP_CONDITIONAL_NZERO l r sc))).
    rewrite (Hr (level + 1) _ (level' + 1) (Some (Command OP_CONDITIONAL_NZERO l r sc))).
    reflexivity.
  - rewrite (Hl (level + 1 + 1) _ (level' + 1 + 1) (Some (Command OP_PIPE l r sc))).
    rewrite (Hr (level + 1 + 1) _ (level' + 1 + 1) (Some (Command OP_PIPE l r sc))).
    reflexivity.
Qed.

(** X16: the program [parse_command] runs on a tree does not depend on
    the nesting level or on the parent node it is given: both are
    handed down to [parse_simple], [run_in_parallel] and [run_on_pipe]
    and used nowhere. *)
Theorem X16_level_and_father_are_unused c level father level' father' :
  parse_command c level father = parse_command c level' father'.
Proof.
  destruct c as [c | ]; [apply parse_command_node_ignores_level_and_father | reflexivity].
Qed.

(** *** Runs in the concrete world *)

(** X1 on [true < ro]: [/home/ro] is readable. *)
Lemma X1_witness :
  exec world (redirect_input (simple "true" None (Some "ro"%string) None None))
    ends_here shell boot =
  Returned tt
    (Process 100 (<[0 := OFile "/home/ro" O_RDONLY]> (fdt shell)) "/home" ∅)
    (System (fs boot) 101 0 ∅
       [(100, EOpen (Some "ro"%string) O_RDONLY 3);
        (100, EDup2 3 0 0);
        (100, EClose 3 0)]).
Proof.
  rewrite (X1_input_redirection_rebinds_stdin world
             (simple "true" None (Some "ro"%string) None None)
             (lit 3000 "ro") "ro" false "old" ends_here shell boot).
  - vm_compute. reflexivity.
  - reflexivity.
  - reflexivity.
  - vm_compute. reflexivity.
  - exists OTty. vm_compute. reflexivity.
Defined.

(** X2 on [true >> log 2> e] where [/home/log] exists: only descriptor
    1 is rebound, no [e] is created, [log] keeps its contents. *)
Lemma X2_witness :
  let sc := SimpleCommand (Some (lit 1000 "true")) None None
              (Some (lit 4000 "log")) (Some (lit 5000 "e")) IO_OUT_APPEND in
  let s := set_fs (<["/home/log"%string := File true true "old"]> (fs boot)) boot in
  exec world (redirect_output sc) ends_here shell s =
  Returned tt
    (Process 100 (<[1 := OFile "/home/log" O_CREATE_APPEND]> (fdt shell)) "/home" ∅)
    (System (fs s) 101 0 ∅
       [(100, EOpen (Some "log"%string) O_CREATE_APPEND 3);
        (100, EDup2 3 1 1);
        (100, EClose 3 0)]) /\
  fs s !! "/home/e"%string = None.
Proof.
  intros sc s.
  destruct (X2_append_output_only world sc (lit 4000 "log") "log" (fs s) ends_here shell s)
    as [Hrun _].
  - reflexivity.
  - vm_compute. reflexivity.
  - reflexivity.
  - vm_compute. reflexivity.
  - exists OTty. vm_compute. reflexivity.
  - split; [ | vm_compute; reflexivity].
    rewrite Hrun. vm_compute. reflexivity.
Defined.

(** X3 on [true > o 2>> e]: only descriptor 2 is rebound, [o] is not
    even created. *)
Lemma X3_witness :
  let sc := SimpleCommand (Some (lit 1000 "true")) None None
              (Some (lit 4000 "o")) (Some (lit 5000 "e")) IO_ERR_APPEND in
  exec world (redirect_output sc) ends_here shell boot =
  Returned tt
    (Process 100 (<[2 := OFile "/home/e" O_CREATE_APPEND]> (fdt shell)) "/home" ∅)
    (System (<["/home/e"%string := File true true ""]> (fs boot)) 101 0 ∅
       [(100, EOpen (Some "e"%string) O_CREATE_APPEND 3);
        (100, EDup2 3 2 2);
        (100, EClose 3 0)]).
Proof.
  intros sc.
  rewrite (X3_append_error_only world sc (lit 5000 "e") "e"
             (<["/home/e"%string := File true true ""]> (fs boot)) ends_here shell boot).
  - vm_compute. reflexivity.
  - reflexivity.
  - vm_compute. reflexivity.
  - vm_compute. reflexivity.
  - reflexivity.
  - vm_compute. reflexivity.
  - exists OTty. vm_compute. reflexivity.
Defined.

(** X4 on [true &> both]: the two targets are one string. *)
Lemma X4_witness :
  let sc := SimpleCommand (Some (lit 1000 "true")) None None
              (Some (lit 4000 "both")) (Some (lit 4000 "both")) IO_REGULAR in
  exec world (redirect_output sc) ends_here shell boot =
  Returned tt
    (Process 100
       (<[2 := OFile "/home/both" O_CREATE_TRUNC]>
          (<[1 := OFile "/home/both" O_CREATE_TRUNC]> (fdt shell))) "/home" ∅)
    (System (<["/home/both"%string := File true true ""]> (fs boot)) 101 0 ∅
       [(100, EOpen (Some "both"%string) O_CREATE_TRUNC 3);
        (100, EDup2 3 1 1);
        (100, EDup2 3 2 2);
        (100, EClose 3 0)]).
Proof.
  intros sc.
  rewrite (X4_combined_output_and_error world sc (lit 4000 "both") (lit 4000 "both") "both"
             (<["/home/both"%string := File true true ""]> (fs boot)) ends_here shell boot).
  - vm_compute. reflexivity.
  - reflexivity.
  - reflexivity.
  - reflexivity.
  - vm_compute. reflexivity.
  - vm_compute. reflexivity.
  - reflexivity.
  - vm_compute. reflexivity.
  - exists OTty. vm_compute. reflexivity.
  - exists OTty. vm_compute. reflexivity.
Defined.

(** X5 on [true > o]. *)
Lemma X5_witness :
  exec world (redirect_output (simple "true" None None (Some "o"%string) None))
    ends_here shell boot =
  Returned tt
    (Process 100 (<[1 := OFile "/home/o" O_CREATE_TRUNC]> (fdt shell)) "/home" ∅)
    (System (<["/home/o"%string := File true true ""]> (fs boot)) 101 0 ∅
       [(100, EOpen (Some "o"%string) O_CREATE_TRUNC 3);
        (100, EDup2 3 1 1);
        (100, EClose 3 0)]).
Proof.
  destruct (X5_plain_output world (simple "true" None None (Some "o"%string) None)
              (lit 4000 "o") "o" (<["/home/o"%string := File true true ""]> (fs boot))
              ends_here shell boot) as [Hrun _].
  - reflexivity.
  - reflexivity.
  - vm_compute. reflexivity.
  - reflexivity.
  - vm_compute. reflexivity.
  - exists OTty. vm_compute. reflexivity.
  - rewrite Hrun. vm_compute. reflexivity.
Defined.

(** X6 on [true 2> e]. *)
Lemma X6_witness :
  exec world (redirect_output (simple "true" None None None (Some "e"%string)))
    ends_here shell boot =
  Returned tt
    (Process 100 (<[2 := OFile "/home/e" O_CREATE_TRUNC]> (fdt shell)) "/home" ∅)
    (System (<["/home/e"%string := File true true ""]> (fs boot)) 101 0 ∅
       [(100, EOpen (Some "e"%string) O_CREATE_TRUNC 3);
        (100, EDup2 3 2 2);
        (100, EClose 3 0)]).
Proof.
  destruct (X6_plain_error world (simple "true" None None None (Some "e"%string))
              (lit 5000 "e") "e" (<["/home/e"%string := File true true ""]> (fs boot))
              ends_here shell boot) as [Hrun _].
  - reflexivity.
  - reflexivity.
  - vm_compute. reflexivity.
  - reflexivity.
  - vm_compute. reflexivity.
  - exists OTty. vm_compute. reflexivity.
  - rewrite Hrun. vm_compute. reflexivity.
Defined.

(** X7 on [true > o] in a process that has closed its standard
    output: [o] is created, descriptor 1 stays closed. *)
Lemma X7_witness :
  let q := set_fdt (delete 1 (fdt shell)) shell in
  exec world (redirect_output (simple "true" None None (Some "o"%string) None))
    ends_here q boot =
  Returned tt q
    (System (<["/home/o"%string := File true true ""]> (fs boot)) 101 0 ∅
       [(100, EOpen (Some "o"%string) O_CREATE_TRUNC 1);
        (100, EDup2 1 1 1);
        (100, EClose 1 0)]) /\
  fdt q !! 1 = None.
Proof.
  intros q.
  destruct (X7_output_lost_when_stdout_is_closed world
              (simple "true" None None (Some "o"%string) None)
              (lit 4000 "o") "o" (<["/home/o"%string := File true true ""]> (fs boot))
              ends_here q boot) as [Hrun Hclosed].
  - reflexivity.
  - reflexivity.
  - vm_compute. reflexivity.
  - reflexivity.
  - vm_compute. reflexivity.
  - vm_compute. reflexivity.
  - split; [ | exact Hclosed]. rewrite Hrun. vm_compute. reflexivity.
Defined.

(** X8 on [quit now > o]: the process ends at once, [o] is not
    created. *)
Lemma X8_witness :
  exec world
    (parse_simple (Some (simple "quit" (Some "now"%string) None (Some "o"%string) None)) 0 None)
    exits_with_status shell boot =
  Terminated (Exited 0) (System (fs boot) 101 0 ∅ [(100, EExit 0)]).
Proof.
  rewrite (X8_exit_ends_the_process world
             (simple "quit" (Some "now"%string) None (Some "o"%string) None)
             (lit 1000 "quit") "quit" 0 None exits_with_status shell boot).
  - vm_compute. reflexivity.
  - reflexivity.
  - reflexivity.
  - right. reflexivity.
Defined.

(** X9 on [cd /home] in a process that is in [/tmp]. *)
Lemma X9_witness :
  exists s',
    exec world (parse_simple (Some (simple "cd" (Some "/home"%string) None None None)) 0 None)
      exits_with_status (set_cwd "/tmp" shell) boot =
    Returned 0 (set_cwd "/home" (set_cwd "/tmp" shell)) s' /\
    next_pid s' = 101%positive.
Proof.
  apply (X9_cd_changes_directory world
           (simple "cd" (Some "/home"%string) None None None)
           (lit 1000 "cd") (lit 2000 "/home") "/home" 0 None exits_with_status
           (set_cwd "/tmp" shell) boot).
  - reflexivity.
  - reflexivity.
  - reflexivity.
  - reflexivity.
  - vm_compute. reflexivity.
Defined.

(** X10 on [cd nodir > o]. *)
Lemma X10_witness :
  exists data dir s',
    exec world (parse_simple (Some cd_nodir_to_o) 0 None) exits_with_status shell boot =
    Returned data (set_cwd dir shell) s' /\
    (data = 0 \/ data = 1) /\ next_pid s' = 101%positive.
Proof.
  apply (X10_cd_returns_in_the_same_process world cd_nodir_to_o (lit 1000 "cd") 0 None
           exits_with_status shell boot).
  - reflexivity.
  - reflexivity.
Defined.

(** X11 on [cd]. *)
Lemma X11_witness :
  exists s',
    exec world (parse_simple (Some (simple "cd" None None None None)) 0 None)
      exits_with_status shell boot =
    Returned 1 shell s' /\
    next_pid s' = 101%positive.
Proof.
  apply (X11_cd_without_argument world (simple "cd" None None None None)
           (lit 1000 "cd") 0 None exits_with_status shell boot).
  - reflexivity.
  - reflexivity.
  - reflexivity.
Defined.

(** X13 on [exit2 < missing > o]. *)
Lemma X13_witness :
  exists t s2,
    let s' := reaped 100 101 t s2 in
    exec world
      (parse_simple
         (Some (simple "exit2" None (Some "missing"%string) (Some "o"%string) None)) 0 None)
      exits_with_status shell boot =
    (if WIFEXITED (wstatus t)
     then Returned (WEXITSTATUS (wstatus t)) shell s'
     else Terminated (Signaled SIGABRT) (record 100 (EFault SIGABRT) s')) /\
    0 <= WEXITSTATUS (wstatus t) <= 255 /\
    zombies s' !! 101 = None.
Proof.
  apply (X13_external_command_returns_or_aborts world
           (simple "exit2" None (Some "missing"%string) (Some "o"%string) None)
           (lit 1000 "exit2") "exit2" 0 None exits_with_status shell boot).
  - reflexivity.
  - reflexivity.
  - vm_compute. reflexivity.
Defined.

(** X14 on [exit2 & true], called by code that ends with the status it
    gets back: the child runs [exit2], gets 2, returns 1 and ends with
    it; the parent runs [true] and returns 1. *)
Lemma X14_witness :
  exec world
    (parse_command (Some (node OP_PARALLEL (leaf exit2_cmd) (leaf true_cmd))) 0 None)
    exits_with_status shell boot =
  Returned 1 shell
    (System (fs boot) 104 0 ∅
       [(100, EFork 101);
        (101, EFork 102);
        (102, EExecvp "exit2" ["exit2"%string] (fdt shell) true);
        (101, EWaitpid 102 102 (wstatus (Exited 2)));
        (101, EExit 1);
        (100, EFork 103);
        (103, EExecvp "true" ["true"%string] (fdt shell) true);
        (100, EWaitpid 103 103 0);
        (100, EWaitpid 101 101 (wstatus (Exited 1)))]) /\
  (1 = 0 \/ 1 = 1).
Proof.
  assert (Hrun :
    exec world
      (parse_command (Some (node OP_PARALLEL (leaf exit2_cmd) (leaf true_cmd))) 0 None)
      exits_with_status shell boot =
    Returned 1 shell
      (System (fs boot) 104 0 ∅
         [(100, EFork 101);
          (101, EFork 102);
          (102, EExecvp "exit2" ["exit2"%string] (fdt shell) true);
          (101, EWaitpid 102 102 (wstatus (Exited 2)));
          (101, EExit 1);
          (100, EFork 103);
          (103, EExecvp "true" ["true"%string] (fdt shell) true);
          (100, EWaitpid 103 103 0);
          (100, EWaitpid 101 101 (wstatus (Exited 1)))]))
    by (vm_compute; reflexivity).
  split; [exact Hrun | ].
  exact (X14_parallel_returns_a_bool world _ _ _ _ _ _ _ _ _ _ _ Hrun).
Defined.

(** [hands_only] counts the children in.  Under a caller that ends with
    status 0 whatever it gets, [nosuch] returns 0 in the shell; yet it
    does not hand only 0 to its caller: its child hands 1, the size of
    the argument vector, and a caller that ends differently on 1 changes
    what the shell gets from [waitpid]. *)
Example statuses_of_children_count :
  returned_status
    (exec world (parse_command (Some (leaf nosuch_cmd)) 0 None) exits_with_zero shell boot)
  = Some 0 /\
  ~ hands_only world (fun v => v = 0) (parse_command (Some (leaf nosuch_cmd)) 0 None).
Proof.
  split; [vm_compute; reflexivity | ].
  intros H.
  destruct (H exits_with_zero
              (fun v q t => if v =? 1 then (Exited 7, t) else exits_with_zero v q t)
              shell boot) as [Heq _].
  - intros v q t ->. reflexivity.
  - vm_compute in Heq. discriminate.
Qed.
